(** * Risk analytics core of the stock portfolio application

    A shallow embedding of [utils/portfolio.py], [utils/risk_metrics.py]
    and [utils/simulation.py], followed by the properties of the
    specification that these functions decide.

    Numbers.  A finite Python float is represented by a rational of [Q];
    rounding and overflow are not represented, so every identity below is
    an identity of exact arithmetic.  The non-finite values the code
    itself can create (the NaN row of [pct_change], the NaN of an empty
    mean, a division by zero) are represented by [None] in [num]. *)

From Stdlib Require Import QArith Qround Qabs ZArith List Lia Lqa.
From stdpp Require Import gmap strings list sorting.

Local Open Scope Q_scope.

(** ** Python outcomes *)

(** An exception is identified by the name of its class. *)
Definition exn := string.

Definition ValueError : exn := "ValueError"%string.
Definition IndexError : exn := "IndexError"%string.
Definition LinAlgError : exn := "LinAlgError"%string.

(** Error classes that the specification names.  No class of these names
    is defined or raised anywhere in the sources. *)
Definition DimensionMismatchError : exn := "DimensionMismatchError"%string.
Definition InsufficientDataError : exn := "InsufficientDataError"%string.

Inductive outcome (A : Type) : Type :=
| Ok (a : A)
| Raise (e : exn).
Arguments Ok {A} a.
Arguments Raise {A} e.

Definition bind {A B} (o : outcome A) (k : A -> outcome B) : outcome B :=
  match o with
  | Ok a => k a
  | Raise e => Raise e
  end.

Notation "'let*' x ':=' o 'in' k" := (bind o (fun x => k))
  (at level 10, x name, o at level 100, k at level 200).

(** ** Floats with a non-finite element *)

(** [Some q] is the finite value [q]; [None] is NaN or an infinity. *)
Definition num := option Q.

Definition nadd (a b : num) : num :=
  match a, b with Some x, Some y => Some (x + y) | _, _ => None end.
Definition nsub (a b : num) : num :=
  match a, b with Some x, Some y => Some (x - y) | _, _ => None end.
Definition nmul (a b : num) : num :=
  match a, b with Some x, Some y => Some (x * y) | _, _ => None end.
(** Float division never raises: a zero divisor gives an infinity or NaN. *)
Definition ndiv (a b : num) : num :=
  match a, b with
  | Some x, Some y => if Qeq_bool y 0 then None else Some (x / y)
  | _, _ => None
  end.

Definition Qsum (l : list Q) : Q := fold_right Qplus 0 l.
Definition nsum (l : list num) : num := fold_right nadd (Some 0) l.
Definition nprod (l : list num) : num := fold_right nmul (Some 1) l.

Definition len {A} (l : list A) : Q := inject_Z (Z.of_nat (length l)).

(** ** utils/portfolio.py: the Portfolio class *)

Module portfolio.

Record Holding := {
  symbol : string;
  shares : Q;
  buy_price : Q;
  invested_value : Q
}.

Record Portfolio := { holdings : list Holding }.

(** [Portfolio.__init__] *)
Definition init : Portfolio := {| holdings := [] |}.

Definition add_holding (self : Portfolio) (sym : string) (sh bp : Q)
  : Portfolio :=
  let holding := {| symbol := sym; shares := sh; buy_price := bp;
                    invested_value := sh * bp |} in
  {| holdings := holdings self ++ [holding] |}.

(** Python's [list.pop(i)]: a negative index counts from the end, an index
    outside [-len, len) raises IndexError.  The result is the popped
    element and the remaining list. *)
Definition list_pop {A} (l : list A) (i : Z) : outcome (A * list A) :=
  let n := Z.of_nat (length l) in
  let j := if (i <? 0)%Z then (i + n)%Z else i in
  if ((0 <=? j)%Z && (j <? n)%Z)%bool then
    match l !! Z.to_nat j with
    | Some x => Ok (x, delete (Z.to_nat j) l)
    | None => Raise IndexError
    end
  else Raise IndexError.

Definition remove_holding (self : Portfolio) (index : Z) : outcome Portfolio :=
  if ((0 <=? index)%Z && (index <? Z.of_nat (length (holdings self)))%Z)%bool
  then
    let* r := list_pop (holdings self) index in
    Ok {| holdings := snd r |}
  else Ok self.

Definition get_symbols (self : Portfolio) : list string :=
  map symbol (holdings self).

Definition get_invested_value (self : Portfolio) : Q :=
  fold_left (fun acc h => acc + invested_value h) (holdings self) 0.

Definition calculate_current_value (self : Portfolio)
    (current_prices : gmap string Q) : Q :=
  fold_left
    (fun total_value holding =>
       match current_prices !! symbol holding with
       | Some price => total_value + shares holding * price
       | None => total_value
       end)
    (holdings self) 0.

(** [np.zeros(n)] *)
Definition np_zeros (n : nat) : list Q := replicate n 0.

Definition calculate_weights (self : Portfolio)
    (current_prices : gmap string Q) : list Q :=
  let total_value := calculate_current_value self current_prices in
  if Qeq_bool total_value 0 then np_zeros (length (holdings self))
  else
    map (fun holding =>
           match current_prices !! symbol holding with
           | Some price =>
               let holding_value := shares holding * price in
               holding_value / total_value
           | None => 0
           end)
        (holdings self).

Definition is_empty (self : Portfolio) : bool :=
  Nat.eqb (length (holdings self)) 0.

Definition get_holding_count (self : Portfolio) : nat :=
  length (holdings self).

(** One row of the allocation table. *)
Record AllocationRow := {
  Symbol : string;
  Shares : Q;
  Buy_Price : Q;
  Current_Price : Q;
  Invested : Q;
  Current_Value : Q;
  Weight_pct : Q;
  Gain_Loss : Q;
  Gain_Loss_pct : Q
}.

(** [x > 0] *)
Definition positive (x : Q) : bool := negb (Qle_bool x 0).

(** The table has a row for each holding with a quote, in the order of
    the holdings. *)
Definition get_allocation_table (self : Portfolio)
    (current_prices : gmap string Q) : list AllocationRow :=
  let total_value := calculate_current_value self current_prices in
  omap (fun holding =>
          let invested := invested_value holding in
          match current_prices !! symbol holding with
          | Some current_price =>
              let current_value := shares holding * current_price in
              let weight :=
                if positive total_value then current_value / total_value
                else 0 in
              let gain_loss := current_value - invested in
              let gain_loss_pct :=
                if positive invested then gain_loss / invested * 100
                else 0 in
              Some {| Symbol := symbol holding;
                      Shares := shares holding;
                      Buy_Price := buy_price holding;
                      Current_Price := current_price;
                      Invested := invested;
                      Current_Value := current_value;
                      Weight_pct := weight * 100;
                      Gain_Loss := gain_loss;
                      Gain_Loss_pct := gain_loss_pct |}
          | None => None
          end)
       (holdings self).

(** The serialised form: a dictionary with the holdings under one key. *)
Definition to_dict (self : Portfolio) : gmap string (list Holding) :=
  {[ "holdings"%string := holdings self ]}.

(** [data.get('holdings', [])] *)
Definition from_dict (data : gmap string (list Holding)) : Portfolio :=
  {| holdings := default [] (data !! "holdings"%string) |}.

End portfolio.

(** ** The parts of pandas and numpy that the core calls *)

Module pandas.

(** A price table: one name per column, one list of cells per row. *)
Record DataFrame := {
  columns : list string;
  rows : list (list Q)
}.

Definition well_formed (df : DataFrame) : Prop :=
  Forall (fun r => length r = length (columns df)) (rows df).

Definition positive_prices (prices : DataFrame) : Prop :=
  Forall (Forall (fun x => 0 < x)) (rows prices).

(** A cell of [pct_change]: a finite value, an infinity (a non-zero price
    over a zero previous price) or NaN (no previous price, or 0/0). *)
Inductive cell := Finite (q : Q) | Infinite | NaN.

Definition pct (prev cur : Q) : cell :=
  if Qeq_bool prev 0
  then (if Qeq_bool cur 0 then NaN else Infinite)
  else Finite (cur / prev - 1).

(** [DataFrame.pct_change] on the row cells: the first row has no
    previous price and is NaN; each later cell is [cur / prev - 1]. *)
Fixpoint pct_change_from (prev : list Q) (rest : list (list Q))
  : list (list cell) :=
  match rest with
  | [] => []
  | cur :: rest' => zip_with pct prev cur :: pct_change_from cur rest'
  end.

Definition pct_change (rs : list (list Q)) : list (list cell) :=
  match rs with
  | [] => []
  | first :: rest => map (fun _ => NaN) first :: pct_change_from first rest
  end.

(** A row survives [dropna] when none of its cells is NaN; infinities are
    kept. *)
Fixpoint without_nan (r : list cell) : option (list num) :=
  match r with
  | [] => Some []
  | NaN :: _ => None
  | c :: r' =>
      match without_nan r' with
      | Some xs =>
          Some (match c with Finite q => Some q | _ => None end :: xs)
      | None => None
      end
  end.

Fixpoint dropna (rs : list (list cell)) : list (list num) :=
  match rs with
  | [] => []
  | r :: rs' =>
      match without_nan r with
      | Some xs => xs :: dropna rs'
      | None => dropna rs'
      end
  end.

(** The returns engine, [prices.pct_change().dropna()]. *)
Definition returns_of (prices : DataFrame) : list (list num) :=
  dropna (pct_change (rows prices)).

Definition column {A} (d : A) (j : nat) (rs : list (list A)) : list A :=
  map (fun r => default d (r !! j)) rs.

(** The finite cells of an array, or [None] when one is not finite. *)
Fixpoint all_finite (xs : list num) : option (list Q) :=
  match xs with
  | [] => Some []
  | Some x :: xs' =>
      match all_finite xs' with Some qs => Some (x :: qs) | None => None end
  | None :: _ => None
  end.

(** [mean] of finite values: NaN on an empty array. *)
Definition mean (xs : list Q) : num :=
  match xs with
  | [] => None
  | _ => Some (Qsum xs / len xs)
  end.

(** [mean] of an array that may hold non-finite values. *)
Definition nmean (xs : list num) : num :=
  match all_finite xs with
  | Some qs => mean qs
  | None => None
  end.

(** Sample covariance of two columns ([ddof = 1]); NaN with fewer than
    two observations, not finite when an observation is not. *)
Definition cov_entry (xs ys : list num) : num :=
  match all_finite xs, all_finite ys with
  | Some xs, Some ys =>
      if (length xs <? 2)%nat then None
      else
        let mx := Qsum xs / len xs in
        let my := Qsum ys / len ys in
        Some (Qsum (zip_with (fun x y => (x - mx) * (y - my)) xs ys)
                / (len xs - 1))
  | _, _ => None
  end.

(** [returns.cov().values] for a table of [k] columns: a k x k array. *)
Definition cov (k : nat) (rs : list (list num)) : list (list num) :=
  map (fun i =>
         map (fun j => cov_entry (column None i rs) (column None j rs))
             (seq 0 k))
      (seq 0 k).

(** [returns.mean().values]: one mean per column. *)
Definition column_means (k : nat) (rs : list (list num)) : list num :=
  map (fun j => nmean (column None j rs)) (seq 0 k).

(** One cell of [df * weights]: an infinite return times a zero weight
    is NaN. *)
Definition weigh (c : num) (w : Q) : cell :=
  match c with
  | Some x => Finite (x * w)
  | None => if Qeq_bool w 0 then NaN else Infinite
  end.

(** [df * weights] for a 1-d array: the array is aligned with the columns
    and pandas raises ValueError when the lengths differ. *)
Definition mul_columns (k : nat) (rs : list (list num)) (weights : list Q)
  : outcome (list (list cell)) :=
  if (length weights =? k)%nat
  then Ok (map (fun r => zip_with weigh r weights) rs)
  else Raise ValueError.

(** The sum of one row in [sum(axis=1)]: NaN cells are skipped. *)
Fixpoint sum_skipna (r : list cell) : num :=
  match r with
  | [] => Some 0
  | Finite q :: r' => nadd (Some q) (sum_skipna r')
  | Infinite :: _ => None
  | NaN :: r' => sum_skipna r'
  end.

End pandas.

Module numpy.

(** [np.dot(M, v)] for a 2-d array of [k] columns and a 1-d array:
    ValueError when the shapes are not aligned. *)
Definition dot_matrix_vector (k : nat) (M : list (list num)) (v : list Q)
  : outcome (list num) :=
  if (length v =? k)%nat
  then Ok (map (fun r => nsum (zip_with (fun c x => nmul c (Some x)) r v)) M)
  else Raise ValueError.

(** [np.dot(a, b)] for two 1-d arrays. *)
Definition dot_vector_vector (a : list Q) (b : list num) : outcome num :=
  if (length a =? length b)%nat
  then Ok (nsum (zip_with (fun x c => nmul (Some x) c) a b))
  else Raise ValueError.

End numpy.

(** ** utils/portfolio.py: risk decomposition *)

Module risk_decomposition.
Import pandas numpy.

(** Lines 247-251: the covariance matrix and [w . (cov . w)]. *)
Definition cov_matrix (prices : DataFrame) : list (list num) :=
  cov (length (columns prices)) (returns_of prices).

Definition marginal_contrib (prices : DataFrame) (weights : list Q)
  : outcome (list num) :=
  dot_matrix_vector (length (columns prices)) (cov_matrix prices) weights.

Definition portfolio_variance (prices : DataFrame) (weights : list Q)
  : outcome num :=
  let* cw := marginal_contrib prices weights in
  dot_vector_vector weights cw.

(** The returned Series, as (column name, percentage) pairs. *)
Definition calculate_risk_contribution (prices : DataFrame)
    (weights : list Q) : outcome (list (string * num)) :=
  let* portfolio_variance := portfolio_variance prices weights in
  let* marginal_contrib := marginal_contrib prices weights in
  let risk_contrib :=
    zip_with (fun w m => nmul (Some w) m) weights marginal_contrib in
  let risk_contrib_pct :=
    map (fun c => nmul (ndiv c portfolio_variance) (Some 100)) risk_contrib in
  Ok (zip (columns prices) risk_contrib_pct).

End risk_decomposition.

(** ** numpy's percentile, median and means *)

Module npstat.
Import pandas.

Definition Qltb (x y : Q) : bool := negb (Qle_bool y x).

Fixpoint insert_sorted (x : Q) (l : list Q) : list Q :=
  match l with
  | [] => [x]
  | y :: l' => if Qle_bool x y then x :: l else y :: insert_sorted x l'
  end.

(** The ascending order in which [np.percentile] reads the sample. *)
Definition sort (l : list Q) : list Q := fold_right insert_sorted [] l.

(** [arr[i]] with Python's negative indices. *)
Definition getitem {A} (arr : list A) (i : Z) : outcome A :=
  let n := Z.of_nat (length arr) in
  let j := if (i <? 0)%Z then (i + n)%Z else i in
  if (j <? 0)%Z then Raise IndexError
  else match arr !! Z.to_nat j with
       | Some x => Ok x
       | None => Raise IndexError
       end.

(** numpy's [_lerp]: [a + (b-a)*t], recomputed as [b - (b-a)*(1-t)] where
    [t >= 0.5]. *)
Definition lerp (a b t : Q) : Q :=
  if Qle_bool (1 # 2) t then b - (b - a) * (1 - t) else a + (b - a) * t.

(** numpy's [_get_indexes] for the linear method: the floor of the virtual
    index and its successor, both set to [-1] at or above the last
    position and to [0] below the first. *)
Definition get_indexes (n : nat) (virtual_index : Q) : Z * Z :=
  if Qle_bool (inject_Z (Z.of_nat n) - 1) virtual_index then ((-1)%Z, (-1)%Z)
  else if Qltb virtual_index 0 then (0%Z, 0%Z)
  else (Qfloor virtual_index, (Qfloor virtual_index + 1)%Z).

(** [np.percentile(a, q)] with the default linear interpolation.  A [q]
    outside [0, 100] raises ValueError before the data is read; an empty
    sample has no last element to read. *)
Definition percentile (a : list Q) (q : Q) : outcome Q :=
  let quantile := q / 100 in
  if negb (Qle_bool 0 quantile && Qle_bool quantile 1) then Raise ValueError
  else
    let arr := sort a in
    let virtual_index := (len a - 1) * quantile in
    let '(previous_index, next_index) :=
      get_indexes (length a) virtual_index in
    let* previous := getitem arr previous_index in
    let* next := getitem arr next_index in
    let gamma := virtual_index - inject_Z previous_index in
    Ok (lerp previous next gamma).

(** The mean of a boolean mask: the fraction of [True]. *)
Definition mask_mean (mask : list bool) : num :=
  mean (map (fun b : bool => if b then 1 else 0) mask).

(** [np.median]: the mean of the middle element, or of the two middle
    elements, of the sorted sample. *)
Definition median (xs : list Q) : num :=
  let s := sort xs in
  let n := length xs in
  if (n =? 0)%nat then None
  else if Nat.odd n then mean (take 1 (drop (n / 2) s))
  else mean (take 2 (drop (n / 2 - 1) s)).

Definition nmedian (xs : list num) : num :=
  match all_finite xs with
  | Some qs => median qs
  | None => None
  end.

End npstat.

(** ** utils/risk_metrics.py *)

Module risk_metrics.
Import pandas npstat.

Definition calculate_portfolio_returns (prices : DataFrame)
    (weights : list Q) : outcome (list num) :=
  let returns := returns_of prices in
  let* weighted := mul_columns (length (columns prices)) returns weights in
  Ok (map sum_skipna weighted).

Definition calculate_var (returns : list Q) (confidence_level : Q)
  : outcome Q :=
  percentile returns ((1 - confidence_level) * 100).




End risk_metrics.

(** ** utils/simulation.py *)

(** What the simulators take from the numpy runtime and the embedding
    leaves abstract: the state of the process-wide generator behind
    [np.random], the state that [np.random.seed] installs, one standard
    normal draw, the square root, and the factor [sqrt(s)[:, None] * v]
    that [multivariate_normal] computes from the singular value
    decomposition of the covariance (LinAlgError when it fails). *)
Class Runtime := {
  RandomState : Type;
  seed_state : Z -> RandomState;
  standard_normal : RandomState -> Q * RandomState;
  np_sqrt : Q -> Q;
  np_sqrt_nonneg : forall x, 0 <= np_sqrt x;
  covariance_factor : list (list num) -> outcome (list (list Q))
}.

Module simulation.
Import pandas npstat.

Section WithRuntime.
Context {rt : Runtime}.

(** A call reads and replaces the process-wide generator. *)
Definition Random (A : Type) : Type := RandomState -> A * RandomState.

(** [np.random.seed(s)] *)
Definition np_random_seed (s : Z) : Random unit :=
  fun _ => (tt, seed_state s).

(** [n] successive draws, in the order numpy fills an array. *)
Fixpoint draws (n : nat) : Random (list Q) :=
  fun g =>
    match n with
    | O => ([], g)
    | S n' =>
        let '(z, g1) := standard_normal g in
        let '(zs, g2) := draws n' g1 in
        (z :: zs, g2)
    end.

Fixpoint draw_rows (n h : nat) : Random (list (list Q)) :=
  fun g =>
    match n with
    | O => ([], g)
    | S n' =>
        let '(r, g1) := draws h g in
        let '(rs, g2) := draw_rows n' h g1 in
        (r :: rs, g2)
    end.

Fixpoint draw_cube (n h k : nat) : Random (list (list (list Q))) :=
  fun g =>
    match n with
    | O => ([], g)
    | S n' =>
        let '(m, g1) := draw_rows h k g in
        let '(ms, g2) := draw_cube n' h k g1 in
        (m :: ms, g2)
    end.

(** [np.random.normal(loc, scale, size=(n, h))]: ValueError for a negative
    scale, leaving the generator as it was. *)
Definition np_random_normal (loc scale : num) (n h : nat)
  : Random (outcome (list (list num))) :=
  fun g =>
    match scale with
    | Some s =>
        if Qltb s 0 then (Raise ValueError, g)
        else
          let '(z, g') := draw_rows n h g in
          (Ok (map (map (fun x => nadd loc (nmul scale (Some x)))) z), g')
    | None =>
        let '(z, g') := draw_rows n h g in
        (Ok (map (map (fun x => nadd loc (nmul scale (Some x)))) z), g')
    end.

(** Row vector times matrix, [np.dot(x, A)]. *)
Definition row_times (x : list Q) (A : list (list Q)) (k : nat) : list Q :=
  map (fun j => Qsum (zip_with Qmult x (column 0 j A))) (seq 0 k).

(** [np.random.multivariate_normal(mean, cov, size=(n, h))]: the standard
    normal draws are taken first, then the covariance is factored, then
    each drawn vector is transformed and shifted by the mean. *)
Definition np_random_multivariate_normal (mean : list num)
    (cov : list (list num)) (n h : nat)
  : Random (outcome (list (list (list num)))) :=
  fun g =>
    let k := length mean in
    let '(x, g') := draw_cube n h k g in
    (let* A := covariance_factor cov in
     Ok (map (map (fun v =>
                     zip_with (fun c m => nadd (Some c) m) (row_times v A k)
                              mean)) x),
     g').

(** [Series.pct_change().dropna()]: the table operations on a single
    column. *)
Definition series_returns (prices : list Q) : list num :=
  column None 0 (dropna (pct_change (map (fun p => [p]) prices))).

(** [Series.std] ([ddof = 1]): NaN with fewer than two observations. *)
Definition std (xs : list num) : num :=
  match cov_entry xs xs with
  | Some v => Some (np_sqrt v)
  | None => None
  end.

(** [np.dot(simulated_returns, weights)] on an (n, h, k) array. *)
Definition dot_cube_vector (k : nat) (cube : list (list (list num)))
    (weights : list Q) : outcome (list (list num)) :=
  if (length weights =? k)%nat
  then Ok (map (map (fun v =>
                       nsum (zip_with (fun c w => nmul c (Some w)) v weights)))
               cube)
  else Raise ValueError.

Definition simulate_portfolio_outcomes (prices : DataFrame)
    (weights : list Q) (current_value : Q) (horizon_days n_simulations : nat)
    (random_seed : Z) : Random (outcome (list num)) :=
  fun g =>
    let '(_, g) := np_random_seed random_seed g in
    let returns := returns_of prices in
    let k := length (columns prices) in
    let mean_returns := column_means k returns in
    let cov_matrix := cov k returns in
    let '(simulated_returns, g) :=
      np_random_multivariate_normal mean_returns cov_matrix
        n_simulations horizon_days g in
    (let* simulated_returns := simulated_returns in
     let* portfolio_returns :=
       dot_cube_vector k simulated_returns weights in
     Ok (map (fun path =>
                nmul (Some current_value)
                     (nprod (map (fun r => nadd (Some 1) r) path)))
             portfolio_returns),
     g).

(** One pass of the loop body,
    [price_paths[:, t + 1] = price_paths[:, t] * (1 + simulated_returns[:, t])],
    row by row; a position outside a row is an IndexError. *)
Definition compound_row (t : nat) (path sim : list num)
  : outcome (list num) :=
  match path !! t, sim !! t with
  | Some p, Some r =>
      if (S t <? length path)%nat
      then Ok (<[S t := nmul p (nadd (Some 1) r)]> path)
      else Raise IndexError
  | _, _ => Raise IndexError
  end.

Fixpoint compound_column (t : nat) (paths sims : list (list num))
  : outcome (list (list num)) :=
  match paths, sims with
  | path :: paths', sim :: sims' =>
      let* row := compound_row t path sim in
      let* rest := compound_column t paths' sims' in
      Ok (row :: rest)
  | [], [] => Ok []
  | _, _ => Raise ValueError
  end.

(** [for t in range(horizon_days)], run from [t] for [fuel] iterations. *)
Fixpoint compound_loop (fuel t : nat) (paths sims : list (list num))
  : outcome (list (list num)) :=
  match fuel with
  | O => Ok paths
  | S fuel' =>
      let* paths' := compound_column t paths sims in
      compound_loop fuel' (S t) paths' sims
  end.

(** Lines 99-111: the seeded array of simulated daily returns. *)
Definition simulated_daily_returns (prices : list Q)
    (horizon_days n_simulations : nat) (random_seed : Z)
  : Random (outcome (list (list num))) :=
  fun g =>
    let '(_, g) := np_random_seed random_seed g in
    let returns := series_returns prices in
    let mean_return := nmean returns in
    let volatility := std returns in
    np_random_normal mean_return volatility n_simulations horizon_days g.

Definition simulate_single_asset_paths (prices : list Q) (current_price : Q)
    (horizon_days n_simulations : nat) (random_seed : Z)
  : Random (outcome (list (list num))) :=
  fun g =>
    let '(simulated_returns, g) :=
      simulated_daily_returns prices horizon_days n_simulations random_seed g
    in
    (let* simulated_returns := simulated_returns in
     let price_paths :=
       replicate n_simulations (replicate (horizon_days + 1) (Some 0)) in
     let price_paths := map (fun row => <[O := Some current_price]> row)
                            price_paths in
     compound_loop horizon_days 0 price_paths simulated_returns,
     g).

Record Percentiles := {
  p5th : Q; p25th : Q; p50th : Q; p75th : Q; p95th : Q
}.

Record Stats := {
  mean_value : num;
  median_value : Q;
  std_value : num;
  percentiles : Percentiles;
  prob_gain : num;
  prob_loss : num;
  prob_significant_loss : num;
  mean_return : num;
  median_return : num;
  var_95 : Q;
  cvar_95 : num
}.

(** [ndarray.std] ([ddof = 0]). *)
Definition np_std (xs : list Q) : num :=
  match mean xs with
  | Some m =>
      match mean (map (fun x => (x - m) * (x - m)) xs) with
      | Some v => Some (np_sqrt v)
      | None => None
      end
  | None => None
  end.

Definition calculate_simulation_statistics (simulated_values : list Q)
    (current_value : Q) : outcome Stats :=
  let* q5 := percentile simulated_values 5 in
  let* q25 := percentile simulated_values 25 in
  let* q50 := percentile simulated_values 50 in
  let* q75 := percentile simulated_values 75 in
  let* q95 := percentile simulated_values 95 in
  let percentiles :=
    {| p5th := q5; p25th := q25; p50th := q50; p75th := q75; p95th := q95 |} in
  let prob_gain :=
    mask_mean (map (fun v => Qltb current_value v) simulated_values) in
  let prob_significant_loss :=
    mask_mean (map (fun v => Qltb v (current_value * (95 # 100)))
                   simulated_values) in
  let simulated_returns :=
    map (fun v => ndiv (Some (v - current_value)) (Some current_value))
        simulated_values in
  let* var_95 := percentile simulated_values 5 in
  let* threshold := percentile simulated_values 5 in
  Ok {| mean_value := mean simulated_values;
        median_value := p50th percentiles;
        std_value := np_std simulated_values;
        percentiles := percentiles;
        prob_gain := prob_gain;
        prob_loss := nsub (Some 1) prob_gain;
        prob_significant_loss := prob_significant_loss;
        mean_return := nmean simulated_returns;
        median_return := nmedian simulated_returns;
        var_95 := var_95;
        cvar_95 :=
          mean (filter (fun v => Qle_bool v threshold = true)
                       simulated_values) |}.

End WithRuntime.
End simulation.

(** ** utils/risk_metrics.py: maximum drawdown *)

(** A float with signed infinities, for the quotients of
    [calculate_max_drawdown]. *)
Inductive xfloat := XFinite (q : Q) | XNegInf | XPosInf | XNaN.

Module drawdown.

(** Float division: a zero divisor gives NaN for a zero dividend and an
    infinity of the dividend's sign otherwise. *)
Definition divide (x y : Q) : xfloat :=
  if Qeq_bool y 0
  then (if Qeq_bool x 0 then XNaN
        else if Qle_bool x 0 then XNegInf else XPosInf)
  else XFinite (x / y).

(** [Series.cumprod] *)
Fixpoint cumprod_from (acc : Q) (l : list Q) : list Q :=
  match l with
  | [] => []
  | x :: l' => acc * x :: cumprod_from (acc * x) l'
  end.

Definition cumprod (l : list Q) : list Q :=
  match l with
  | [] => []
  | x :: l' => x :: cumprod_from x l'
  end.

(** [Series.expanding().max()]: the largest value so far. *)
Fixpoint expanding_max_from (m : Q) (l : list Q) : list Q :=
  match l with
  | [] => []
  | x :: l' =>
      let m' := if Qle_bool m x then x else m in
      m' :: expanding_max_from m' l'
  end.

Definition expanding_max (l : list Q) : list Q :=
  match l with
  | [] => []
  | x :: l' => x :: expanding_max_from x l'
  end.

(** The smaller of two floats, a NaN giving way to the other one. *)
Definition xmin (a b : xfloat) : xfloat :=
  match a, b with
  | XNaN, c | c, XNaN => c
  | XNegInf, _ | _, XNegInf => XNegInf
  | XPosInf, c | c, XPosInf => c
  | XFinite x, XFinite y => if Qle_bool x y then a else b
  end.

(** [Series.min]: NaN entries are skipped; NaN when nothing is left. *)
Definition series_min (l : list xfloat) : xfloat :=
  fold_right xmin XNaN l.

Definition calculate_max_drawdown (returns : list Q) : xfloat :=
  let cumulative := cumprod (map (fun r => 1 + r) returns) in
  let running_max := expanding_max cumulative in
  let drawdown :=
    zip_with (fun c m => divide (c - m) m) cumulative running_max in
  series_min drawdown.

End drawdown.

(** ** utils/explain.py and assets/styles.py: risk levels *)

Module explain.

Definition assess_risk_level (var_pct : Q) : string * string :=
  if npstat.Qltb var_pct 3 then ("Low", "🟢")%string
  else if npstat.Qltb var_pct 7 then ("Moderate", "🟡")%string
  else if npstat.Qltb var_pct 12 then ("High", "🟠")%string
  else ("Very High", "🔴")%string.

End explain.

Module styles.

Definition COLORS : gmap string string :=
  list_to_map
    [("primary", "#1f4788"); ("secondary", "#2c5aa0");
     ("success", "#27ae60"); ("warning", "#f39c12");
     ("danger", "#e74c3c"); ("info", "#3498db");
     ("light", "#ecf0f1"); ("dark", "#34495e");
     ("background", "#ffffff"); ("text", "#2c3e50")]%string.

Definition RISK_COLORS : gmap string string :=
  list_to_map
    [("Low", "#27ae60"); ("Moderate", "#f39c12");
     ("High", "#e67e22"); ("Very High", "#e74c3c")]%string.

Definition RISK_EMOJIS : gmap string string :=
  list_to_map
    [("Low", "🟢"); ("Moderate", "🟡");
     ("High", "🟠"); ("Very High", "🔴")]%string.

(** [d[key]]: KeyError when the key is missing. *)
Definition getitem (d : gmap string string) (key : string)
  : outcome string :=
  match d !! key with
  | Some v => Ok v
  | None => Raise "KeyError"%string
  end.

(** [RISK_COLORS.get(risk_level, COLORS['info'])]: the default is looked
    up before the call. *)
Definition get_risk_color (risk_level : string) : outcome string :=
  let* fallback := getitem COLORS "info"%string in
  Ok (default fallback (RISK_COLORS !! risk_level)).

Definition get_risk_emoji (risk_level : string) : string :=
  default "⚪"%string (RISK_EMOJIS !! risk_level).

End styles.

(** ** numpy's histogram and the loss distribution of utils/simulation.py *)

Module nphist.
Import npstat.

Fixpoint traverse {A B} (f : A -> outcome B) (l : list A)
  : outcome (list B) :=
  match l with
  | [] => Ok []
  | x :: l' =>
      let* y := f x in
      let* ys := traverse f l' in
      Ok (y :: ys)
  end.

(** [a.min()] and [a.max()] of a non-empty array [x :: l]. *)
Definition amin (x : Q) (l : list Q) : Q :=
  fold_left (fun m y => if Qle_bool m y then m else y) l x.
Definition amax (x : Q) (l : list Q) : Q :=
  fold_left (fun m y => if Qle_bool y m then m else y) l x.

(** [np.linspace(start, stop, num)] for [num >= 2]: equal steps from
    [start], the last point set to [stop]. *)
Definition linspace (start stop : Q) (num : nat) : list Q :=
  let step := (stop - start) / inject_Z (Z.of_nat (num - 1)) in
  map (fun i => inject_Z (Z.of_nat i) * step + start) (seq 0 (num - 1))
  ++ [stop].

(** numpy's [_get_outer_edges]: the range of the data, widened by one
    half on each side when it is a single point. *)
Definition outer_edges (a : list Q) : Q * Q :=
  match a with
  | [] => (0, 1)
  | x :: l =>
      let first_edge := amin x l in
      let last_edge := amax x l in
      if Qeq_bool first_edge last_edge
      then (first_edge - (1 # 2), last_edge + (1 # 2))
      else (first_edge, last_edge)
  end.

(** [astype(np.intp)]: truncation towards zero. *)
Definition trunc (f : Q) : Z :=
  if Qle_bool 0 f then Qfloor f else Qceiling f.

(** The bin of one value, as the equal-width path of [np.histogram]
    computes it: the scaled position truncated, the last edge moved into
    the last bin, then one step down or up where the value lies outside the
    edges of the bin found. *)
Definition bin_index (bin_edges : list Q) (first_edge last_edge : Q)
    (n_equal_bins : Z) (x : Q) : outcome Z :=
  let f_index :=
    (x - first_edge) / (last_edge - first_edge) * inject_Z n_equal_bins in
  let index := trunc f_index in
  let index := if (index =? n_equal_bins)%Z then (index - 1)%Z else index in
  let* edge := getitem bin_edges index in
  let index := if Qltb x edge then (index - 1)%Z else index in
  let* next_edge := getitem bin_edges (index + 1) in
  let index :=
    if (negb (Qltb x next_edge) && negb (index =? n_equal_bins - 1)%Z)%bool
    then (index + 1)%Z else index in
  Ok index.

Definition count_index (b : nat) (indices : list Z) : nat :=
  length (filter (fun i => i = Z.of_nat b) indices).

(** [np.bincount(indices, minlength=m)]: ValueError on a negative index. *)
Definition bincount (indices : list Z) (minlength : nat)
  : outcome (list nat) :=
  if existsb (fun i => (i <? 0)%Z) indices then Raise ValueError
  else
    let size :=
      fold_right (fun i m => Nat.max (S (Z.to_nat i)) m) minlength indices in
    Ok (map (fun b => count_index b indices) (seq 0 size)).

(** [np.histogram(a, bins)] for an integer number of bins: the counts and
    the bin edges. *)
Definition histogram (a : list Q) (bins : nat)
  : outcome (list nat * list Q) :=
  let '(first_edge, last_edge) := outer_edges a in
  let bin_edges := linspace first_edge last_edge (bins + 1) in
  let keep :=
    filter (fun x => Qle_bool first_edge x && Qle_bool x last_edge = true) a in
  let* indices :=
    traverse (bin_index bin_edges first_edge last_edge (Z.of_nat bins))
             keep in
  let* n := bincount indices bins in
  Ok (n, bin_edges).

End nphist.

Module loss_distribution.
Import npstat nphist.

(** [simulated_values] is not empty where the histogram branch divides by
    its length. *)
Definition get_loss_distribution (simulated_values : list Q)
    (current_value : Q) : outcome (list Q * list Q) :=
  let losses := map (fun v => current_value - v) simulated_values in
  let loss_scenarios := filter (fun l => Qltb 0 l = true) losses in
  if (0 <? length loss_scenarios)%nat then
    let* r := histogram loss_scenarios 50 in
    let '(hist, bin_edges) := r in
    let probabilities :=
      map (fun c => inject_Z (Z.of_nat c) / len simulated_values) hist in
    let bin_centers :=
      zip_with (fun lo hi => (lo + hi) / 2)
               (removelast bin_edges) (tail bin_edges) in
    Ok (bin_centers, probabilities)
  else Ok ([], []).

End loss_distribution.

(** ** utils/data_loader.py: the data quality score *)

Module data_loader.

(** A fetched price table, whose cells may be missing ([None] is NaN). *)
Record RawFrame := {
  raw_columns : list string;
  raw_rows : list (list num)
}.

(** [prices.size] *)
Definition size (prices : RawFrame) : nat :=
  (length (raw_rows prices) * length (raw_columns prices))%nat.

(** [prices.isna().sum().sum()] *)
Definition isna_count (prices : RawFrame) : nat :=
  list_sum (map (fun r => length (filter (fun c => c = None) r))
                (raw_rows prices)).

(** Python's [min(x, y)]: the second argument only when it is smaller. *)
Definition py_min (x y : Q) : Q := if npstat.Qltb y x then y else x.

Definition calculate_data_quality_score (prices : RawFrame) : num :=
  let length_score := py_min (len (raw_rows prices) / 252) 1 in
  let completeness_score :=
    nsub (Some 1)
         (ndiv (Some (inject_Z (Z.of_nat (isna_count prices))))
               (Some (inject_Z (Z.of_nat (size prices))))) in
  nadd (nmul (Some length_score) (Some (7 # 10)))
       (nmul completeness_score (Some (3 # 10))).

End data_loader.

(** ** pages/3_Scenario_Explorer.py *)

(** pages/3_Scenario_Explorer.py, line 110: the probability of loss as
    the scenario page computes it, with a strict comparison. *)
Definition scenario_explorer_prob_loss (final_prices : list Q)
    (current_price : Q) : num :=
  nmul (npstat.mask_mean
          (map (fun v => npstat.Qltb v current_price) final_prices))
       (Some 100).

(** ** Notions used to state the properties *)

(** The value each holding adds to the total. *)
Definition holding_value (quotes : gmap string Q) (h : portfolio.Holding)
  : Q :=
  match quotes !! portfolio.symbol h with
  | Some price => portfolio.shares h * price
  | None => 0
  end.


(** ** Notions used to state the further properties *)

Section FurtherNotions.
Import portfolio drawdown data_loader.

Definition nonnegative_position (p : Portfolio) (quotes : gmap string Q)
  : Prop :=
  Forall (fun h => 0 <= shares h) (holdings p) /\
  forall (k : string) (v : Q), quotes !! k = Some v -> 0 <= v.

(** The row that [get_allocation_table] makes of one holding. *)
Definition allocation_row (total_value : Q) (quotes : gmap string Q)
    (holding : Holding) : option AllocationRow :=
  let invested := invested_value holding in
  match quotes !! symbol holding with
  | Some current_price =>
      let current_value := shares holding * current_price in
      let weight :=
        if positive total_value then current_value / total_value else 0 in
      let gain_loss := current_value - invested in
      let gain_loss_pct :=
        if positive invested then gain_loss / invested * 100 else 0 in
      Some {| Symbol := symbol holding;
              Shares := shares holding;
              Buy_Price := buy_price holding;
              Current_Price := current_price;
              Invested := invested;
              Current_Value := current_value;
              Weight_pct := weight * 100;
              Gain_Loss := gain_loss;
              Gain_Loss_pct := gain_loss_pct |}
  | None => None
  end.


(** A drawdown that is a finite zero. *)
Definition no_loss (d : xfloat) : Prop := exists q, d = XFinite q /\ q == 0.


(** The position of a risk level on the scale from low to very high. *)
Definition risk_rank (level : string) : option nat :=
  if decide (level = "Low"%string) then Some 0%nat
  else if decide (level = "Moderate"%string) then Some 1%nat
  else if decide (level = "High"%string) then Some 2%nat
  else if decide (level = "Very High"%string) then Some 3%nat
  else None.

Definition rectangular (prices : RawFrame) : Prop :=
  Forall (fun r => length r = length (raw_columns prices)) (raw_rows prices).

Definition three_day_table : RawFrame :=
  {| raw_columns := ["A"%string; "B"%string];
     raw_rows := [[Some 100; Some 50]; [Some 101; None]; [Some 99; Some 51]] |}.

End FurtherNotions.

(** ** Sample data *)

Module samples.
Import portfolio pandas.

Definition h_aapl : Holding :=
  {| symbol := "AAPL"; shares := 10; buy_price := 150;
     invested_value := 10 * 150 |}.
Definition h_msft : Holding :=
  {| symbol := "MSFT"; shares := 5; buy_price := 300;
     invested_value := 5 * 300 |}.
Definition h_tcs : Holding :=
  {| symbol := "TCS"; shares := 4; buy_price := 25;
     invested_value := 4 * 25 |}.

Definition three_holdings : Portfolio :=
  {| holdings := [h_aapl; h_msft; h_tcs] |}.

(** Quotes for two of the three symbols. *)
Definition two_quotes : gmap string Q :=
  <["AAPL"%string := 100]> (<["TCS"%string := 250]> ∅).

(** Quotes for all three symbols. *)
Definition all_quotes : gmap string Q :=
  <["MSFT"%string := 310]> two_quotes.

(** Two assets, three dates. *)
Definition two_assets : DataFrame :=
  {| columns := ["A"%string; "B"%string];
     rows := [[100; 50]; [110; 49]; [99; 56]] |}.

Definition two_rows : DataFrame :=
  {| columns := ["A"%string; "B"%string];
     rows := [[100; 50]; [110; 49]] |}.

Definition one_row : DataFrame :=
  {| columns := ["A"%string; "B"%string];
     rows := [[100; 50]] |}.

(** A week of daily returns. *)
Definition sample_returns : list Q :=
  [1 # 100; -3 # 100; 2 # 100; -5 # 100; 0; 4 # 100; -1 # 100].

End samples.

(** ** A runtime to run the simulators on *)

(** A linear congruential generator stands in for the Mersenne Twister, a
    triangular value in [-2, 2] for the normal draw, a truncated square root
    for [np.sqrt], and the covariance itself for its factor: enough to run
    the simulators, not a model of numpy's numerics. *)
Module sample_runtime.

Definition lcg (g : Z) : Z := ((g * 1103515245 + 12345) mod 2147483648)%Z.

Definition draw (g : Z) : Q * Z :=
  let g' := lcg g in
  (((g' mod 2001 - 1000) # 500), g').

Definition sqrt (x : Q) : Q :=
  Z.sqrt (Qnum x * Zpos (Qden x) * 1000000000000) # (Qden x * 1000000).

Lemma sqrt_nonneg (x : Q) : 0 <= sqrt x.
Proof.
  unfold sqrt, Qle. simpl. rewrite Z.mul_1_r. apply Z.sqrt_nonneg.
Qed.

Fixpoint finite_rows (m : list (list num)) : option (list (list Q)) :=
  match m with
  | [] => Some []
  | r :: m' =>
      match pandas.all_finite r, finite_rows m' with
      | Some qs, Some rest => Some (qs :: rest)
      | _, _ => None
      end
  end.

Definition factor (cov : list (list num)) : outcome (list (list Q)) :=
  match finite_rows cov with
  | Some m => Ok m
  | None => Raise LinAlgError
  end.

Definition runtime : Runtime :=
  {| RandomState := Z;
     seed_state := fun s => s;
     standard_normal := draw;
     np_sqrt := sqrt;
     np_sqrt_nonneg := sqrt_nonneg;
     covariance_factor := factor |}.

End sample_runtime.

(** * Properties *)

(** ** Worked values *)

Section WorkedValues.
Import pandas npstat risk_metrics risk_decomposition.

Example percentile_median_of_four :
  exists v, percentile [4; 1; 3; 2] 50 = Ok v /\ v == 5 # 2.
Proof. eexists. split; reflexivity. Qed.

Example percentile_fifth_of_four :
  exists v, percentile [4; 1; 3; 2] 5 = Ok v /\ v == 23 # 20.
Proof. eexists. split; reflexivity. Qed.

Example percentile_above_range :
  percentile [4; 1; 3; 2] 101 = Raise ValueError.
Proof. reflexivity. Qed.

Example returns_of_two_assets :
  returns_of samples.two_assets
  = [[Some (110 / 100 - 1); Some (49 / 50 - 1)];
     [Some (99 / 110 - 1); Some (56 / 49 - 1)]].
Proof. reflexivity. Qed.

(** Two assets with the same price history and equal weights carry half
    of the variance each. *)
Example equal_assets_equal_contribution :
  exists a b,
    calculate_risk_contribution
      {| columns := ["A"%string; "B"%string];
         rows := [[100; 100]; [100; 100]; [110; 110]] |}
      [1 # 2; 1 # 2]
    = Ok [("A"%string, Some a); ("B"%string, Some b)] /\
    a == 50 /\ b == 50.
Proof. do 2 eexists. split; [vm_compute; reflexivity|]. split; reflexivity. Qed.

(** A single return row leaves the covariance undefined. *)
Example two_rows_no_variance :
  calculate_risk_contribution samples.two_rows [1 # 2; 1 # 2]
  = Ok [("A"%string, None); ("B"%string, None)].
Proof. reflexivity. Qed.

(** Two simulated paths of three days, on the sample runtime: both start
    at the current price. *)
Example two_paths_start_at_current_price :
  exists paths,
    fst (simulation.simulate_single_asset_paths
           (rt := sample_runtime.runtime) [100; 101; 99; 102] 50 3 2 42 0%Z)
    = Ok paths /\
    map length paths = [4%nat; 4%nat] /\
    map (fun path => path !! 0%nat) paths
    = [Some (Some 50); Some (Some 50)].
Proof. eexists. split; [vm_compute; reflexivity|]. split; reflexivity. Qed.

(** Three weights against two assets stop the portfolio simulator at the
    projection on the weights. *)
Example portfolio_simulation_misaligned :
  fst (simulation.simulate_portfolio_outcomes
         (rt := sample_runtime.runtime) samples.two_assets
         [1 # 2; 1 # 2; 1] 1000 2 3 42 0%Z)
  = Raise ValueError.
Proof. vm_compute. reflexivity. Qed.

End WorkedValues.

(** ** Portfolio valuation *)

Section PortfolioFacts.
Import portfolio.

Lemma list_pop_in_range {A} (l : list A) (i : Z) :
  (0 <= i < Z.of_nat (length l))%Z ->
  exists x, l !! Z.to_nat i = Some x /\
            list_pop l i = Ok (x, delete (Z.to_nat i) l).
Proof.
  intros Hi. unfold list_pop.
  destruct (Z.ltb_spec i 0) as [Hneg|_]; [lia|].
  destruct (Z.leb_spec 0 i) as [_|Hneg]; [|lia].
  destruct (Z.ltb_spec i (Z.of_nat (length l))) as [_|Hge]; [|lia].
  simpl.
  destruct (l !! Z.to_nat i) as [x|] eqn:Hx.
  - exists x. split; reflexivity.
  - apply lookup_ge_None in Hx. lia.
Qed.

Lemma current_value_from (quotes : gmap string Q) (hs : list Holding) (a : Q) :
  fold_left
    (fun total_value holding =>
       match quotes !! symbol holding with
       | Some price => total_value + shares holding * price
       | None => total_value
       end) hs a
  == a + Qsum (map (holding_value quotes) hs).
Proof.
  revert a. induction hs as [|h hs IH]; intros a; simpl.
  - ring.
  - rewrite IH. unfold holding_value at 2.
    destruct (quotes !! symbol h); ring.
Qed.

Lemma current_value_sum (p : Portfolio) (quotes : gmap string Q) :
  calculate_current_value p quotes
  == Qsum (map (holding_value quotes) (holdings p)).
Proof.
  unfold calculate_current_value. rewrite current_value_from. ring.
Qed.

Lemma weights_sum_scaled (quotes : gmap string Q) (hs : list Holding)
    (total : Q) :
  Qsum (map (fun holding =>
               match quotes !! symbol holding with
               | Some price => shares holding * price / total
               | None => 0
               end) hs)
  == Qsum (map (holding_value quotes) hs) / total.
Proof.
  induction hs as [|h hs IH]; simpl.
  - unfold Qdiv. ring.
  - rewrite IH. unfold holding_value at 2.
    destruct (quotes !! symbol h); unfold Qdiv; ring.
Qed.

(** C10.  [remove_holding] with an index that is negative or not below the
    number of holdings returns normally and leaves the portfolio as it was;
    with an index in range it deletes the holding at that position and
    keeps the others in their order. *)
Theorem remove_holding_frame (p : Portfolio) (index : Z) :
  ((index < 0 \/ Z.of_nat (length (holdings p)) <= index)%Z ->
   remove_holding p index = Ok p) /\
  ((0 <= index < Z.of_nat (length (holdings p)))%Z ->
   remove_holding p index =
     Ok {| holdings := take (Z.to_nat index) (holdings p)
                       ++ drop (S (Z.to_nat index)) (holdings p) |}).
Proof.
  unfold remove_holding. split; intros H.
  - destruct (Z.leb_spec 0 index); simpl; [|reflexivity].
    destruct (Z.ltb_spec index (Z.of_nat (length (holdings p))));
      [lia|reflexivity].
  - destruct (Z.leb_spec 0 index); [|lia].
    destruct (Z.ltb_spec index (Z.of_nat (length (holdings p)))); [|lia].
    simpl. destruct (list_pop_in_range (holdings p) index H) as (x & _ & ->).
    simpl. now rewrite delete_take_drop.
Qed.

Lemma remove_holding_frame_witness :
  remove_holding samples.three_holdings (-1) = Ok samples.three_holdings /\
  remove_holding samples.three_holdings 3 = Ok samples.three_holdings /\
  remove_holding samples.three_holdings 1 =
    Ok {| holdings := [samples.h_aapl; samples.h_tcs] |}.
Proof.
  split; [|split].
  - apply (proj1 (remove_holding_frame samples.three_holdings (-1))).
    left. lia.
  - apply (proj1 (remove_holding_frame samples.three_holdings 3)).
    right. simpl. lia.
  - apply (proj2 (remove_holding_frame samples.three_holdings 1)).
    simpl. lia.
Defined.

(** C9.  [calculate_weights] returns one weight per holding.  When the
    current value is strictly positive, a holding without a quote has weight
    0 and the weights sum to 1; when the current value is 0, every weight
    is 0. *)
Theorem calculate_weights_normalised (p : Portfolio)
    (quotes : gmap string Q) :
  length (calculate_weights p quotes) = length (holdings p) /\
  (0 < calculate_current_value p quotes ->
   (forall (i : nat) (h : Holding),
      holdings p !! i = Some h -> quotes !! symbol h = None ->
      calculate_weights p quotes !! i = Some 0) /\
   Qsum (calculate_weights p quotes) == 1) /\
  (calculate_current_value p quotes == 0 ->
   calculate_weights p quotes = replicate (length (holdings p)) 0).
Proof.
  unfold calculate_weights, np_zeros.
  destruct (Qeq_bool (calculate_current_value p quotes) 0) eqn:Hz.
  - apply Qeq_bool_iff in Hz. split; [|split].
    + apply length_replicate.
    + intros Hpos. rewrite Hz in Hpos. now apply Qlt_irrefl in Hpos.
    + reflexivity.
  - apply Qeq_bool_neq in Hz. split; [|split].
    + apply length_map.
    + intros _. split.
      * intros i h Hi Hq. rewrite list_lookup_fmap, Hi. simpl.
        now rewrite Hq.
      * rewrite weights_sum_scaled, <- current_value_sum.
        now field.
    + intros H0. contradiction.
Qed.

Lemma calculate_weights_normalised_witness :
  0 < calculate_current_value samples.three_holdings samples.two_quotes /\
  calculate_weights samples.three_holdings samples.two_quotes !! 1%nat
    = Some 0 /\
  Qsum (calculate_weights samples.three_holdings samples.two_quotes) == 1.
Proof.
  assert (Hpos : 0 < calculate_current_value samples.three_holdings
                       samples.two_quotes) by (vm_compute; reflexivity).
  destruct (calculate_weights_normalised samples.three_holdings
              samples.two_quotes) as (_ & Hw & _).
  destruct (Hw Hpos) as (Hzero & Hsum).
  split; [exact Hpos|split].
  - apply (Hzero 1%nat samples.h_msft); reflexivity.
  - exact Hsum.
Defined.

End PortfolioFacts.

(** ** Risk decomposition *)

Section RiskDecompositionFacts.
Import pandas numpy risk_decomposition.






End RiskDecompositionFacts.

Section DimensionFacts.
Import pandas numpy risk_decomposition.

(** C5, as the code has it.  With a weight vector whose length differs from
    the number of columns, [calculate_risk_contribution] returns no value:
    the first [np.dot] raises numpy's ValueError. *)
Theorem risk_contribution_length_mismatch (prices : DataFrame)
    (weights : list Q) :
  length weights <> length (columns prices) ->
  calculate_risk_contribution prices weights = Raise ValueError.
Proof.
  intros Hne.
  unfold calculate_risk_contribution, portfolio_variance, marginal_contrib,
    dot_matrix_vector.
  destruct (Nat.eqb_spec (length weights) (length (columns prices)));
    [contradiction|reflexivity].
Qed.

Lemma risk_contribution_length_mismatch_witness :
  length [1 # 3; 1 # 3; 1 # 3] <> length (columns samples.two_assets) /\
  calculate_risk_contribution samples.two_assets [1 # 3; 1 # 3; 1 # 3]
    = Raise ValueError.
Proof.
  assert (H : length [1 # 3; 1 # 3; 1 # 3]
              <> length (columns samples.two_assets)) by (simpl; lia).
  split; [exact H|].
  exact (risk_contribution_length_mismatch samples.two_assets
           [1 # 3; 1 # 3; 1 # 3] H).
Defined.

(** C5, as the specification has it, fails: three weights against two
    columns do not produce a DimensionMismatchError. *)
Lemma risk_contribution_mismatch_untyped :
  length [1 # 3; 1 # 3; 1 # 3] <> length (columns samples.two_assets) /\
  calculate_risk_contribution samples.two_assets [1 # 3; 1 # 3; 1 # 3]
    <> Raise DimensionMismatchError.
Proof.
  split; [simpl; lia|].
  vm_compute. intros H. discriminate H.
Qed.

End DimensionFacts.

(** ** The returns engine *)

Section ReturnsFacts.
Import pandas risk_metrics.

Lemma pct_positive (prev cur : Q) :
  0 < prev -> pct prev cur = Finite (cur / prev - 1).
Proof.
  intros Hp. unfold pct.
  destruct (Qeq_bool prev 0) eqn:E; [|reflexivity].
  apply Qeq_bool_iff in E. rewrite E in Hp. now apply Qlt_irrefl in Hp.
Qed.

Lemma without_nan_pct (prev cur : list Q) :
  Forall (fun x => 0 < x) prev ->
  exists xs, without_nan (zip_with pct prev cur) = Some xs /\
             length xs = length (zip_with pct prev cur).
Proof.
  intros Hp. revert cur.
  induction Hp as [|p prev Hp0 Hp IH]; intros cur; simpl.
  - exists []. split; reflexivity.
  - destruct cur as [|c cur]; simpl.
    + exists []. split; reflexivity.
    + rewrite (pct_positive p c Hp0).
      destruct (IH cur) as (xs & -> & Hl).
      eexists. split; [reflexivity|]. simpl. now rewrite Hl.
Qed.

Lemma dropna_pct_change_from (prev : list Q) (rest : list (list Q)) :
  Forall (fun x => 0 < x) prev ->
  Forall (Forall (fun x => 0 < x)) rest ->
  length (dropna (pct_change_from prev rest)) = length rest.
Proof.
  intros Hp Hr. revert prev Hp.
  induction Hr as [|cur rest Hc Hr IH]; intros prev Hp; simpl.
  - reflexivity.
  - destruct (without_nan_pct prev cur Hp) as (xs & -> & _).
    simpl. now rewrite IH.
Qed.

Lemma without_nan_first_row (first : list Q) :
  first <> [] -> without_nan (map (fun _ => NaN) first) = None.
Proof. destruct first; [contradiction|reflexivity]. Qed.

Lemma returns_length (prices : DataFrame) :
  columns prices <> [] -> well_formed prices -> positive_prices prices ->
  length (returns_of prices) = pred (length (rows prices)).
Proof.
  unfold returns_of, well_formed, positive_prices.
  destruct prices as [cols rs]. simpl. intros Hc Hwf Hpos.
  destruct rs as [|first rest]; [reflexivity|]. simpl.
  inversion Hwf as [|? ? Hfirst _]; subst.
  inversion Hpos as [|? ? Hp0 Hprest]; subst.
  rewrite without_nan_first_row.
  - now apply dropna_pct_change_from.
  - intros ->. destruct cols; [contradiction|discriminate].
Qed.

(** C7, as the code has it.  On a rectangular table of positive prices
    with at least one column the returns engine yields one row fewer than
    its input.  With matching weights, two price rows give exactly one
    portfolio return, and one price row gives an empty result: nothing is
    raised. *)
Theorem returns_one_fewer_row (prices : DataFrame) (weights : list Q) :
  columns prices <> [] -> well_formed prices -> positive_prices prices ->
  length weights = length (columns prices) ->
  length (returns_of prices) = pred (length (rows prices)) /\
  (length (rows prices) = 2%nat ->
   exists r, calculate_portfolio_returns prices weights = Ok [r]) /\
  (length (rows prices) = 1%nat ->
   returns_of prices = [] /\
   calculate_portfolio_returns prices weights = Ok []).
Proof.
  intros Hc Hwf Hpos Hw.
  pose proof (returns_length prices Hc Hwf Hpos) as Hlen.
  split; [exact Hlen|].
  unfold calculate_portfolio_returns, mul_columns.
  rewrite Hw, Nat.eqb_refl. simpl.
  split; intros Hn; rewrite Hn in Hlen; simpl in Hlen.
  - destruct (returns_of prices) as [|r [|r' rs]]; try discriminate.
    eexists. reflexivity.
  - destruct (returns_of prices); [|discriminate].
    split; reflexivity.
Qed.

Lemma positive_two_rows : positive_prices samples.two_rows.
Proof. repeat constructor. Defined.

Lemma positive_one_row : positive_prices samples.one_row.
Proof. repeat constructor. Defined.

Lemma returns_one_fewer_row_witness :
  (exists r, calculate_portfolio_returns samples.two_rows [1 # 2; 1 # 2]
             = Ok [r]) /\
  calculate_portfolio_returns samples.one_row [1 # 2; 1 # 2] = Ok [].
Proof.
  split.
  - refine (proj1 (proj2 (returns_one_fewer_row samples.two_rows
                            [1 # 2; 1 # 2] _ _ positive_two_rows _)) _);
      try reflexivity; try discriminate.
    repeat constructor.
  - refine (proj2 (proj2 (proj2 (returns_one_fewer_row samples.one_row
                            [1 # 2; 1 # 2] _ _ positive_one_row _)) _));
      try reflexivity; try discriminate.
    repeat constructor.
Defined.

(** C7, as the specification has it, fails: a table with a single price
    row does not make the returns engine raise InsufficientDataError. *)
Lemma one_row_raises_nothing :
  length (rows samples.one_row) = 1%nat /\
  calculate_portfolio_returns samples.one_row [1 # 2; 1 # 2]
    <> Raise InsufficientDataError.
Proof.
  split; [reflexivity|].
  vm_compute. intros H. discriminate H.
Qed.

End ReturnsFacts.

(** ** Percentiles *)

Section PercentileFacts.
Import pandas npstat.

Lemma Qle_bool_false (x y : Q) : Qle_bool x y = false -> y < x.
Proof.
  intros H. apply Qnot_le_lt. intros Hle.
  apply Qle_bool_iff in Hle. congruence.
Qed.

Lemma insert_sorted_In (x y : Q) (l : list Q) :
  In y (insert_sorted x l) <-> y = x \/ In y l.
Proof.
  induction l as [|z l IH]; simpl.
  - intuition.
  - destruct (Qle_bool x z); simpl; rewrite ?IH; intuition.
Qed.

Lemma sort_In (y : Q) (l : list Q) : In y (sort l) <-> In y l.
Proof.
  induction l as [|x l IH]; simpl; [reflexivity|].
  rewrite insert_sorted_In, IH. intuition.
Qed.

Lemma length_insert_sorted (x : Q) (l : list Q) :
  length (insert_sorted x l) = S (length l).
Proof.
  induction l as [|z l IH]; simpl; [reflexivity|].
  destruct (Qle_bool x z); simpl; congruence.
Qed.

Lemma length_sort (l : list Q) : length (sort l) = length l.
Proof.
  induction l as [|x l IH]; simpl; [reflexivity|].
  now rewrite length_insert_sorted, IH.
Qed.

Lemma insert_sorted_ascending (x : Q) (l : list Q) :
  StronglySorted Qle l -> StronglySorted Qle (insert_sorted x l).
Proof.
  induction 1 as [|z l Hs IH Hall]; simpl.
  - repeat constructor.
  - destruct (Qle_bool x z) eqn:E.
    + apply Qle_bool_iff in E. constructor.
      * now constructor.
      * constructor; [exact E|].
        eapply Forall_impl; [exact Hall|].
        intros a Ha. simpl in Ha. now apply Qle_trans with z.
    + apply Qle_bool_false in E. constructor; [exact IH|].
      apply Forall_forall. intros a Ha.
      apply list_elem_of_In, insert_sorted_In in Ha.
      destruct Ha as [->|Ha].
      * now apply Qlt_le_weak.
      * rewrite Forall_forall in Hall. apply Hall.
        now apply list_elem_of_In.
Qed.

Lemma sort_ascending (l : list Q) : StronglySorted Qle (sort l).
Proof.
  induction l as [|x l IH]; simpl.
  - constructor.
  - now apply insert_sorted_ascending.
Qed.

Lemma ascending_lookup (l : list Q) (i j : nat) (a b : Q) :
  StronglySorted Qle l -> (i <= j)%nat ->
  l !! i = Some a -> l !! j = Some b -> a <= b.
Proof.
  intros Hs. revert i j.
  induction Hs as [|z l Hs IH Hall]; intros i j Hij Hi Hj.
  - discriminate.
  - destruct i as [|i], j as [|j]; simpl in *.
    + injection Hi as <-. injection Hj as <-. apply Qle_refl.
    + injection Hi as <-. rewrite Forall_forall in Hall.
      apply Hall. eapply list_elem_of_lookup_2. exact Hj.
    + lia.
    + apply (IH i j); [lia|assumption..].
Qed.

Lemma lookup_In (l : list Q) (i : nat) (x : Q) : l !! i = Some x -> In x l.
Proof.
  intros H. apply list_elem_of_In. eapply list_elem_of_lookup_2. exact H.
Qed.

(** The interpolation stays between its end points. *)
Lemma lerp_between (a b t : Q) :
  a <= b -> 0 <= t -> t <= 1 -> a <= lerp a b t /\ lerp a b t <= b.
Proof.
  intros Hab Ht0 Ht1. unfold lerp.
  assert (H1 : 0 <= (b - a) * t).
  { apply Qmult_le_0_compat; [lra|exact Ht0]. }
  assert (H2 : 0 <= (b - a) * (1 - t)).
  { apply Qmult_le_0_compat; lra. }
  assert (E : (b - a) * (1 - t) == (b - a) - (b - a) * t) by ring.
  destruct (Qle_bool (1 # 2) t); split; lra.
Qed.

Lemma lerp_same (a t : Q) : lerp a a t == a.
Proof. unfold lerp. destruct (Qle_bool (1 # 2) t); ring. Qed.

Lemma getitem_last (arr : list Q) :
  arr <> [] ->
  exists x, arr !! pred (length arr) = Some x /\ getitem arr (-1) = Ok x.
Proof.
  intros Hne. unfold getitem.
  assert (Hn : (0 < length arr)%nat).
  { destruct arr; [contradiction|simpl; lia]. }
  destruct (Z.ltb_spec (-1) 0); [|lia].
  destruct (Z.ltb_spec (-1 + Z.of_nat (length arr)) 0); [lia|].
  replace (Z.to_nat (-1 + Z.of_nat (length arr))) with (pred (length arr))
    by lia.
  destruct (arr !! pred (length arr)) as [x|] eqn:E.
  - exists x. split; reflexivity.
  - apply lookup_ge_None in E. lia.
Qed.

Lemma getitem_nat (arr : list Q) (i : Z) :
  (0 <= i < Z.of_nat (length arr))%Z ->
  exists x, arr !! Z.to_nat i = Some x /\ getitem arr i = Ok x.
Proof.
  intros Hi. unfold getitem.
  destruct (Z.ltb_spec i 0); [lia|].
  destruct (Z.ltb_spec i 0); [lia|].
  destruct (arr !! Z.to_nat i) as [x|] eqn:E.
  - exists x. split; reflexivity.
  - apply lookup_ge_None in E. lia.
Qed.

Lemma sort_lookup_In (a : list Q) (i : nat) (x : Q) :
  sort a !! i = Some x -> In x a.
Proof. intros H. apply sort_In. eapply lookup_In. exact H. Qed.

Lemma sort_nonempty (a : list Q) : a <> [] -> sort a <> [].
Proof.
  intros Hne Hs. apply Hne. apply length_zero_iff_nil.
  rewrite <- length_sort, Hs. reflexivity.
Qed.

(** A percentile of a non-empty sample is returned, and lies between two
    elements of the sample. *)
Lemma percentile_between (a : list Q) (q : Q) :
  a <> [] -> 0 <= q / 100 -> q / 100 <= 1 ->
  exists v lo hi,
    percentile a q = Ok v /\ In lo a /\ In hi a /\ lo <= v /\ v <= hi.
Proof.
  intros Hne Hq0 Hq1. unfold percentile.
  apply Qle_bool_iff in Hq0 as Hb0. apply Qle_bool_iff in Hq1 as Hb1.
  rewrite Hb0, Hb1. simpl. unfold get_indexes, len.
  set (vi := (inject_Z (Z.of_nat (length a)) - 1) * (q / 100)).
  pose proof (sort_nonempty a Hne) as Hsne.
  assert (Hn : (0 < length (sort a))%nat).
  { destruct (sort a); [contradiction|simpl; lia]. }
  destruct (Qle_bool (inject_Z (Z.of_nat (length a)) - 1) vi) eqn:Habove.
  - destruct (getitem_last (sort a) Hsne) as (x & Hx & ->). simpl.
    exists (lerp x x (vi - inject_Z (-1))), x, x.
    apply sort_lookup_In in Hx.
    split; [reflexivity|]. do 2 (split; [assumption|]).
      rewrite lerp_same. split; apply Qle_refl.
  - apply Qle_bool_false in Habove.
    destruct (Qltb vi 0) eqn:Hbelow.
    + destruct (getitem_nat (sort a) 0) as (x & Hx & ->); [lia|]. simpl.
      exists (lerp x x (vi - inject_Z 0)), x, x.
      apply sort_lookup_In in Hx.
      split; [reflexivity|]. do 2 (split; [assumption|]).
      rewrite lerp_same. split; apply Qle_refl.
    + unfold Qltb in Hbelow. apply negb_false_iff, Qle_bool_iff in Hbelow.
      set (p := Qfloor vi).
      assert (Hp0 : (0 <= p)%Z).
      { change 0%Z with (Qfloor 0). now apply Qfloor_resp_le. }
      pose proof (Qfloor_le vi) as Hfl. fold p in Hfl.
      pose proof (Qlt_floor vi) as Hfu. fold p in Hfu.
      rewrite inject_Z_plus in Hfu.
      assert (Hp1 : (p + 1 < Z.of_nat (length a))%Z).
      { rewrite Zlt_Qlt, inject_Z_plus. simpl inject_Z at 2.
        change (inject_Z 1) with 1 in *. lra. }
      rewrite <- length_sort in Hp1.
      destruct (getitem_nat (sort a) p) as (x & Hx & ->); [lia|].
      destruct (getitem_nat (sort a) (p + 1)) as (y & Hy & ->); [lia|].
      simpl.
      assert (Hxy : x <= y).
      { apply (ascending_lookup (sort a) (Z.to_nat p) (Z.to_nat (p + 1)));
          [apply sort_ascending|lia|assumption..]. }
      destruct (lerp_between x y (vi - inject_Z p) Hxy) as [Hlo Hhi].
      { lra. }
      { change (inject_Z 1) with 1 in Hfu. lra. }
      exists (lerp x y (vi - inject_Z p)), x, y.
      apply sort_lookup_In in Hx. apply sort_lookup_In in Hy.
      split; [reflexivity|]. repeat (split; [assumption|]). assumption.
Qed.

End PercentileFacts.

(** ** Value at Risk and Conditional Value at Risk *)

Section RiskMetricsFacts.
Import pandas npstat risk_metrics.

Lemma len_cons {A} (x : A) (l : list A) : len (x :: l) == len l + 1.
Proof.
  unfold len. simpl length. rewrite Nat2Z.inj_succ. unfold Z.succ.
  rewrite inject_Z_plus. reflexivity.
Qed.

Lemma len_nonneg {A} (l : list A) : 0 <= len l.
Proof.
  unfold len. change 0 with (inject_Z 0). rewrite <- Zle_Qle. lia.
Qed.








End RiskMetricsFacts.

Section ConfidenceBoundaryFacts.
Import pandas npstat risk_metrics.








End ConfidenceBoundaryFacts.

(** ** Simulation statistics *)

Section StatisticsFacts.
Import pandas npstat simulation.
Context {rt : Runtime}.

Lemma percentile_constant (v q : Q) (n : nat) :
  n <> 0%nat -> 0 <= q / 100 -> q / 100 <= 1 ->
  exists p, percentile (replicate n v) q = Ok p /\ p == v.
Proof.
  intros Hn H0 H1.
  assert (Hne : replicate n v <> []) by (destruct n; [contradiction|discriminate]).
  destruct (percentile_between (replicate n v) q Hne H0 H1)
    as (p & lo & hi & Hp & Hlo & Hhi & Hle & Hge).
  apply list_elem_of_In, elem_of_replicate in Hlo, Hhi.
  destruct Hlo as [-> _], Hhi as [-> _].
  exists p. split; [exact Hp|]. now apply Qle_antisym.
Qed.

Lemma Qsum_zeros (n : nat) : Qsum (replicate n 0) == 0.
Proof. induction n as [|n IH]; simpl; [reflexivity|]. rewrite IH. ring. Qed.

Lemma Qltb_irrefl (v : Q) : Qltb v v = false.
Proof.
  unfold Qltb. apply negb_false_iff, Qle_bool_iff, Qle_refl.
Qed.

(** No element of a constant sample is strictly above its value. *)
Lemma mask_mean_none_above (v : Q) (n : nat) :
  n <> 0%nat ->
  exists g, mask_mean (map (fun x => Qltb v x) (replicate n v)) = Some g /\
            g == 0.
Proof.
  intros Hn. unfold mask_mean. rewrite map_map.
  change (map ?f (replicate n v)) with (f <$> replicate n v).
  rewrite fmap_replicate, Qltb_irrefl.
  destruct n as [|n]; [contradiction|].
  eexists. split; [reflexivity|].
  rewrite Qsum_zeros. unfold Qdiv. ring.
Qed.

(** C4, on the code.  For a non-empty sample whose values all equal the
    current value, [calculate_simulation_statistics] returns
    [prob_gain = 0] and [median_value = current_value], but
    [prob_loss = 1]: it is computed as [1 - prob_gain], not with a strict
    comparison. *)
Theorem constant_sample_statistics (v : Q) (n : nat) :
  n <> 0%nat ->
  exists s g l,
    calculate_simulation_statistics (replicate n v) v = Ok s /\
    prob_gain s = Some g /\ g == 0 /\
    prob_loss s = Some l /\ l == 1 /\
    median_value s == v.
Proof.
  intros Hn. unfold calculate_simulation_statistics.
  destruct (percentile_constant v 5 n Hn) as (q5 & -> & _);
    [apply Qle_bool_iff; reflexivity..|].
  destruct (percentile_constant v 25 n Hn) as (q25 & -> & _);
    [apply Qle_bool_iff; reflexivity..|].
  destruct (percentile_constant v 50 n Hn) as (q50 & -> & H50);
    [apply Qle_bool_iff; reflexivity..|].
  destruct (percentile_constant v 75 n Hn) as (q75 & -> & _);
    [apply Qle_bool_iff; reflexivity..|].
  destruct (percentile_constant v 95 n Hn) as (q95 & -> & _);
    [apply Qle_bool_iff; reflexivity..|].
  destruct (mask_mean_none_above v n Hn) as (g & Hg & Hg0).
  simpl. eexists. exists g, (1 - g).
  split; [reflexivity|]. simpl. rewrite Hg.
  repeat split; try assumption.
  rewrite Hg0. ring.
Qed.

(** On the same sample the scenario page reports no loss at all. *)
Lemma scenario_explorer_constant_sample :
  exists l, scenario_explorer_prob_loss [100; 100; 100] 100 = Some l /\
            l == 0.
Proof. eexists. split; reflexivity. Qed.

End StatisticsFacts.

Lemma constant_sample_statistics_witness :
  exists s g l,
    simulation.calculate_simulation_statistics
      (rt := sample_runtime.runtime) [100; 100; 100] 100 = Ok s /\
    simulation.prob_gain s = Some g /\ g == 0 /\
    simulation.prob_loss s = Some l /\ l == 1 /\
    simulation.median_value s == 100.
Proof.
  apply (constant_sample_statistics (rt := sample_runtime.runtime) 100 3).
  discriminate.
Defined.

(** ** Monte Carlo simulators *)

Section SimulationFacts.
Import pandas npstat simulation.
Context {rt : Runtime}.

Lemma draws_length (n : nat) (g : RandomState) :
  length (fst (draws n g)) = n.
Proof.
  revert g. induction n as [|n IH]; intros g; simpl; [reflexivity|].
  destruct (standard_normal g) as [z g1].
  specialize (IH g1). destruct (draws n g1) as [zs g2].
  simpl in *. now rewrite IH.
Qed.

Lemma draw_rows_shape (n h : nat) (g : RandomState) :
  length (fst (draw_rows n h g)) = n /\
  Forall (fun r => length r = h) (fst (draw_rows n h g)).
Proof.
  revert g. induction n as [|n IH]; intros g; simpl.
  - split; [reflexivity|constructor].
  - pose proof (draws_length h g) as Hr.
    destruct (draws h g) as [r g1].
    specialize (IH g1). destruct (draw_rows n h g1) as [rs g2].
    simpl in *. destruct IH as [IH1 IH2].
    split; [now rewrite IH1|now constructor].
Qed.









(** C2.  The result of [simulate_portfolio_outcomes], and the generator
    state it leaves behind, are the same whatever state the process-wide
    generator was in when the call started: the call seeds the generator
    before it draws.  In particular a second call with the same arguments
    returns the array of the first. *)
Theorem simulate_portfolio_outcomes_deterministic (prices : DataFrame)
    (weights : list Q) (current_value : Q)
    (horizon_days n_simulations : nat) (random_seed : Z) :
  (forall g1 g2 : RandomState,
     simulate_portfolio_outcomes prices weights current_value horizon_days
       n_simulations random_seed g1
     = simulate_portfolio_outcomes prices weights current_value horizon_days
         n_simulations random_seed g2) /\
  (forall g : RandomState,
     let first := simulate_portfolio_outcomes prices weights current_value
                    horizon_days n_simulations random_seed g in
     let second := simulate_portfolio_outcomes prices weights current_value
                     horizon_days n_simulations random_seed (snd first) in
     fst second = fst first).
Proof.
  assert (H : forall g1 g2 : RandomState,
             simulate_portfolio_outcomes prices weights current_value
               horizon_days n_simulations random_seed g1
             = simulate_portfolio_outcomes prices weights current_value
                 horizon_days n_simulations random_seed g2).
  { intros g1 g2. unfold simulate_portfolio_outcomes, np_random_seed.
    reflexivity. }
  split; [exact H|].
  intros g first second. unfold second, first.
  now rewrite (H (snd (simulate_portfolio_outcomes prices weights
                         current_value horizon_days n_simulations
                         random_seed g)) g).
Qed.

End SimulationFacts.

(** * Further properties of the code *)

(** ** The Portfolio class *)

Section PortfolioMoreFacts.
Import portfolio.

Lemma delete_last {A} (l : list A) (x : A) : delete (length l) (l ++ [x]) = l.
Proof.
  induction l as [|a l IH]; simpl; [reflexivity|]. now rewrite IH.
Qed.

(** X1. [add_holding] appends one holding whose cost basis is
    [shares * buy_price]: the count grows by one, the symbol comes last,
    the invested total grows by the cost basis, and removing the holding at
    the old count gives the portfolio back. *)
Theorem add_holding_appends (p : Portfolio) (sym : string) (sh bp : Q) :
  get_holding_count (add_holding p sym sh bp) = S (get_holding_count p) /\
  get_symbols (add_holding p sym sh bp) = get_symbols p ++ [sym] /\
  get_invested_value (add_holding p sym sh bp)
    = get_invested_value p + sh * bp /\
  is_empty (add_holding p sym sh bp) = false /\
  remove_holding (add_holding p sym sh bp)
    (Z.of_nat (get_holding_count p)) = Ok p.
Proof.
  unfold get_holding_count, get_symbols, get_invested_value, is_empty,
    add_holding. simpl.
  split; [|split; [|split; [|split]]].
  - rewrite length_app. simpl. lia.
  - now rewrite map_app.
  - now rewrite fold_left_app.
  - rewrite length_app. simpl.
    destruct (Nat.eqb_spec (length (holdings p) + 1) 0); [lia|reflexivity].
  - unfold remove_holding. simpl.
    assert (Hin : (0 <= Z.of_nat (length (holdings p))
                   < Z.of_nat (length (holdings p ++
                       [{| symbol := sym; shares := sh; buy_price := bp;
                           invested_value := sh * bp |}])))%Z).
    { rewrite length_app. simpl. lia. }
    destruct (Z.leb_spec 0 (Z.of_nat (length (holdings p)))); [|lia].
    destruct (Z.ltb_spec (Z.of_nat (length (holdings p)))
                (Z.of_nat (length (holdings p ++
                   [{| symbol := sym; shares := sh; buy_price := bp;
                       invested_value := sh * bp |}])))); [|lia].
    simpl.
    destruct (list_pop_in_range _ _ Hin) as (x & _ & ->). simpl.
    rewrite Nat2Z.id, delete_last. now destruct p.
Qed.

(** X2. Serialising and reading back gives the same portfolio, and a
    dictionary without the holdings key reads as the empty portfolio. *)
Theorem from_dict_to_dict (p : Portfolio) :
  from_dict (to_dict p) = p /\
  (forall data : gmap string (list Holding),
     data !! "holdings"%string = None ->
     from_dict data = init /\ is_empty (from_dict data) = true).
Proof.
  split.
  - unfold from_dict, to_dict. rewrite lookup_singleton_eq. simpl.
    now destruct p.
  - intros data Hnone. unfold from_dict. rewrite Hnone. simpl.
    split; reflexivity.
Qed.

Lemma from_dict_to_dict_witness :
  from_dict (to_dict samples.three_holdings) = samples.three_holdings /\
  from_dict ∅ = init.
Proof.
  destruct (from_dict_to_dict samples.three_holdings) as [Hrt Hmiss].
  split; [exact Hrt|].
  apply (Hmiss ∅). apply lookup_empty.
Defined.

Lemma Qsum_nonneg (l : list Q) : Forall (fun x => 0 <= x) l -> 0 <= Qsum l.
Proof.
  induction 1 as [|x l Hx Hl IH]; simpl; [apply Qle_refl|lra].
Qed.

Lemma Qsum_member_le (l : list Q) (x : Q) :
  Forall (fun y => 0 <= y) l -> In x l -> x <= Qsum l.
Proof.
  induction 1 as [|y l Hy Hl IH]; simpl; [contradiction|].
  pose proof (Qsum_nonneg l Hl) as Hs.
  intros [->|Hin]; [lra|]. specialize (IH Hin). lra.
Qed.

Lemma holding_value_nonneg (p : Portfolio) (quotes : gmap string Q) :
  nonnegative_position p quotes ->
  Forall (fun y => 0 <= y) (map (holding_value quotes) (holdings p)).
Proof.
  intros [Hs Hq]. apply Forall_forall. intros y Hy.
  apply list_elem_of_In, in_map_iff in Hy. destruct Hy as (h & <- & Hh).
  rewrite Forall_forall in Hs.
  specialize (Hs h (proj2 (list_elem_of_In _ _) Hh)).
  unfold holding_value. destruct (quotes !! symbol h) as [v|] eqn:E.
  - apply Qmult_le_0_compat; [exact Hs|]. now apply (Hq (symbol h)).
  - apply Qle_refl.
Qed.

(** X3. With non-negative share counts and non-negative quotes every weight
    lies between 0 and 1. *)
Theorem calculate_weights_in_unit_interval (p : Portfolio)
    (quotes : gmap string Q) (w : Q) :
  nonnegative_position p quotes ->
  In w (calculate_weights p quotes) ->
  0 <= w /\ w <= 1.
Proof.
  intros Hpos Hw. pose proof (holding_value_nonneg p quotes Hpos) as Hv.
  unfold calculate_weights, np_zeros in Hw.
  destruct (Qeq_bool (calculate_current_value p quotes) 0) eqn:Hz.
  - apply list_elem_of_In, elem_of_replicate in Hw. destruct Hw as [-> _].
    split; [apply Qle_refl|discriminate].
  - apply Qeq_bool_neq in Hz.
    pose proof (current_value_sum p quotes) as Htot.
    pose proof (Qsum_nonneg _ Hv) as Hsum.
    assert (Htpos : 0 < calculate_current_value p quotes).
    { apply Qle_lteq in Hsum. rewrite Htot.
      destruct Hsum as [Hlt|Heq]; [exact Hlt|].
      exfalso. apply Hz. rewrite Htot. symmetry. exact Heq. }
    apply in_map_iff in Hw. destruct Hw as (h & <- & Hh).
    assert (Hval : 0 <= holding_value quotes h /\
                   holding_value quotes h
                   <= calculate_current_value p quotes).
    { split.
      - rewrite Forall_forall in Hv. apply Hv.
        apply list_elem_of_In, in_map_iff. now exists h.
      - rewrite Htot. apply Qsum_member_le; [exact Hv|].
        apply in_map_iff. now exists h. }
    unfold holding_value in Hval.
    destruct (quotes !! symbol h) as [v|].
    + destruct Hval as [H0 H1]. split.
      * apply Qle_shift_div_l; [exact Htpos|]. lra.
      * apply Qle_shift_div_r; [exact Htpos|]. lra.
    + split; [apply Qle_refl|discriminate].
Qed.

Lemma nonnegative_three_holdings :
  nonnegative_position samples.three_holdings samples.two_quotes.
Proof.
  split.
  - repeat constructor; discriminate.
  - intros k v Hk. unfold samples.two_quotes in Hk.
    apply lookup_insert_Some in Hk.
    destruct Hk as [[_ <-]|[_ Hk]]; [discriminate|].
    apply lookup_insert_Some in Hk.
    destruct Hk as [[_ <-]|[_ Hk]]; [discriminate|].
    now rewrite lookup_empty in Hk.
Defined.

Lemma calculate_weights_in_unit_interval_witness :
  In (1000 / 2000)
     (calculate_weights samples.three_holdings samples.two_quotes) /\
  0 <= (1000 / 2000) /\ (1000 / 2000) <= 1.
Proof.
  assert (Hin : In (1000 / 2000)
                   (calculate_weights samples.three_holdings
                      samples.two_quotes)) by (vm_compute; tauto).
  split; [exact Hin|].
  exact (calculate_weights_in_unit_interval samples.three_holdings
           samples.two_quotes (1000 / 2000) nonnegative_three_holdings Hin).
Defined.

End PortfolioMoreFacts.

Section AllocationFacts.
Import portfolio.

Lemma allocation_table_rows (p : Portfolio) (quotes : gmap string Q) :
  get_allocation_table p quotes
  = omap (allocation_row (calculate_current_value p quotes) quotes)
         (holdings p).
Proof. reflexivity. Qed.

Ltac fold_omap :=
  repeat match goal with
         | |- context [list_omap ?A ?B ?f ?l] =>
             change (list_omap A B f l) with (omap f l)
         end.

Lemma allocation_symbols (t : Q) (quotes : gmap string Q)
    (hs : list Holding) :
  map Symbol (omap (allocation_row t quotes) hs)
  = filter (fun s => is_Some (quotes !! s)) (map symbol hs).
Proof.
  induction hs as [|h hs IH]; simpl; [reflexivity|].
  unfold allocation_row at 1.
  rewrite filter_cons.
  destruct (quotes !! symbol h) as [v|] eqn:E; simpl; fold_omap.
  - destruct (decide (is_Some (Some v))) as [_|Hn].
    + now rewrite IH.
    + exfalso. apply Hn. now exists v.
  - destruct (decide (is_Some (@None Q))) as [[x Hx]|_]; [discriminate|].
    exact IH.
Qed.

Lemma allocation_values (t : Q) (quotes : gmap string Q)
    (hs : list Holding) :
  Qsum (map Current_Value (omap (allocation_row t quotes) hs))
  == Qsum (map (holding_value quotes) hs).
Proof.
  induction hs as [|h hs IH]; simpl; [reflexivity|].
  unfold allocation_row at 1, holding_value at 1.
  destruct (quotes !! symbol h) as [v|]; simpl; fold_omap.
  - now rewrite IH.
  - rewrite IH. ring.
Qed.

Lemma allocation_weights (t : Q) (quotes : gmap string Q)
    (hs : list Holding) :
  positive t = true ->
  Qsum (map Weight_pct (omap (allocation_row t quotes) hs))
  == Qsum (map (holding_value quotes) hs) / t * 100.
Proof.
  intros Ht. induction hs as [|h hs IH]; simpl.
  - unfold Qdiv. ring.
  - unfold allocation_row at 1, holding_value at 1.
    destruct (quotes !! symbol h) as [v|]; simpl; fold_omap.
    + rewrite Ht, IH. unfold Qdiv. ring.
    + rewrite IH. unfold Qdiv. ring.
Qed.

Lemma positive_spec (x : Q) : positive x = true <-> 0 < x.
Proof.
  unfold positive. rewrite negb_true_iff. split.
  - apply Qle_bool_false.
  - intros H. destruct (Qle_bool x 0) eqn:E; [|reflexivity].
    apply Qle_bool_iff in E. lra.
Qed.

(** X4. The allocation table lists the holdings that have a quote, in the
    order of the holdings; its current values add up to the portfolio's
    current value; and when that value is positive its weights add up to
    100 percent. *)
Theorem allocation_table_totals (p : Portfolio) (quotes : gmap string Q) :
  map Symbol (get_allocation_table p quotes)
    = filter (fun s => is_Some (quotes !! s)) (get_symbols p) /\
  Qsum (map Current_Value (get_allocation_table p quotes))
    == calculate_current_value p quotes /\
  (0 < calculate_current_value p quotes ->
   Qsum (map Weight_pct (get_allocation_table p quotes)) == 100).
Proof.
  rewrite allocation_table_rows. split; [|split].
  - apply allocation_symbols.
  - rewrite allocation_values. symmetry. apply current_value_sum.
  - intros Hpos. rewrite allocation_weights by now apply positive_spec.
    rewrite <- current_value_sum. field.
    intros E. rewrite E in Hpos. now apply Qlt_irrefl in Hpos.
Qed.

Lemma allocation_table_totals_witness :
  map Symbol (get_allocation_table samples.three_holdings samples.two_quotes)
    = ["AAPL"%string; "TCS"%string] /\
  Qsum (map Weight_pct
          (get_allocation_table samples.three_holdings samples.two_quotes))
    == 100.
Proof.
  destruct (allocation_table_totals samples.three_holdings
              samples.two_quotes) as (Hsym & _ & Hw).
  split.
  - rewrite Hsym. vm_compute. reflexivity.
  - apply Hw. vm_compute. reflexivity.
Defined.

(** A row never divides by a zero cost basis: its gain is the current
    value less the cost basis, and its gain percentage is 0 when the cost
    basis is not positive and the gain over the cost basis, times 100,
    otherwise. *)
Lemma allocation_gain_loss (p : Portfolio) (quotes : gmap string Q)
    (row : AllocationRow) :
  In row (get_allocation_table p quotes) ->
  Gain_Loss row = Current_Value row - Invested row /\
  Current_Value row = Shares row * Current_Price row /\
  (Invested row <= 0 -> Gain_Loss_pct row = 0) /\
  (0 < Invested row ->
   Gain_Loss_pct row = Gain_Loss row / Invested row * 100).
Proof.
  rewrite allocation_table_rows. intros Hrow.
  apply list_elem_of_In, list_elem_of_omap in Hrow.
  destruct Hrow as (h & _ & Hh). unfold allocation_row in Hh.
  destruct (quotes !! symbol h) as [v|]; [|discriminate].
  injection Hh as <-. simpl.
  split; [reflexivity|]. split; [reflexivity|]. split.
  - intros Hle. destruct (positive (invested_value h)) eqn:E; [|reflexivity].
    apply positive_spec in E. lra.
  - intros Hlt. apply positive_spec in Hlt. now rewrite Hlt.
Qed.

Lemma allocation_gain_loss_witness :
  exists row,
    head (get_allocation_table samples.three_holdings samples.two_quotes)
      = Some row /\
    Gain_Loss row = Current_Value row - Invested row /\
    Gain_Loss_pct row = Gain_Loss row / Invested row * 100.
Proof.
  eexists. split; [vm_compute; reflexivity|].
  match goal with
  | |- Gain_Loss ?r = _ /\ _ =>
      destruct (allocation_gain_loss samples.three_holdings
                  samples.two_quotes r) as (Hg & _ & _ & Hp)
  end.
  - vm_compute. left. reflexivity.
  - split; [exact Hg|]. apply Hp. vm_compute. reflexivity.
Defined.

Lemma invested_value_from (hs : list Holding) (a : Q) :
  fold_left (fun acc h => acc + invested_value h) hs a
  == a + Qsum (map invested_value hs).
Proof.
  revert a. induction hs as [|h hs IH]; intros a; simpl; [ring|].
  rewrite IH. ring.
Qed.

Lemma allocation_gains (t : Q) (quotes : gmap string Q)
    (hs : list Holding) :
  Forall (fun h => is_Some (quotes !! symbol h)) hs ->
  length (omap (allocation_row t quotes) hs) = length hs /\
  Qsum (map Gain_Loss (omap (allocation_row t quotes) hs))
  == Qsum (map (holding_value quotes) hs) - Qsum (map invested_value hs).
Proof.
  induction 1 as [|h hs [v Hv] Hall [IHlen IHsum]]; simpl.
  - split; [reflexivity|ring].
  - destruct (allocation_row t quotes h) as [row|] eqn:Hrow;
      unfold allocation_row in Hrow; rewrite Hv in Hrow; [|discriminate].
    injection Hrow as <-. unfold holding_value at 1. rewrite Hv.
    simpl; fold_omap. split; [now rewrite IHlen|].
    rewrite IHsum. ring.
Qed.

(** X5. When every holding has a quote the allocation table has a row for
    every holding and its Gain/Loss column adds up to the current value of
    the portfolio less its invested value, the total gain that the home
    page shows.  No row divides by a zero cost basis: the gain percentage
    of a row whose cost basis is not positive is 0. *)
Theorem allocation_gains_total (p : Portfolio) (quotes : gmap string Q) :
  (Forall (fun h => is_Some (quotes !! symbol h)) (holdings p) ->
   length (get_allocation_table p quotes) = get_holding_count p /\
   Qsum (map Gain_Loss (get_allocation_table p quotes))
   == calculate_current_value p quotes - get_invested_value p) /\
  (forall row,
     In row (get_allocation_table p quotes) ->
     Invested row <= 0 -> Gain_Loss_pct row = 0).
Proof.
  split.
  - intros Hall. rewrite allocation_table_rows.
    destruct (allocation_gains (calculate_current_value p quotes) quotes
                (holdings p) Hall) as [Hlen Hsum].
    split; [exact Hlen|].
    rewrite Hsum, current_value_sum. unfold get_invested_value.
    rewrite invested_value_from. ring.
  - intros row Hrow Hinv.
    destruct (allocation_gain_loss p quotes row Hrow) as (_ & _ & H & _).
    now apply H.
Qed.

Lemma allocation_gains_total_witness :
  length (get_allocation_table samples.three_holdings samples.all_quotes) = 3%nat /\
  Qsum (map Gain_Loss (get_allocation_table samples.three_holdings samples.all_quotes))
  == calculate_current_value samples.three_holdings samples.all_quotes
     - get_invested_value samples.three_holdings.
Proof.
  apply (proj1 (allocation_gains_total samples.three_holdings samples.all_quotes)).
  repeat constructor; eexists; vm_compute; reflexivity.
Defined.

(** X6. When no holding has a quote the current value is 0, every weight is 0
    and the allocation table is empty; nothing is raised. *)
Theorem unquoted_portfolio (p : Portfolio) (quotes : gmap string Q) :
  Forall (fun h => quotes !! symbol h = None) (holdings p) ->
  calculate_current_value p quotes = 0 /\
  calculate_weights p quotes = replicate (length (holdings p)) 0 /\
  get_allocation_table p quotes = [].
Proof.
  intros Hall.
  assert (Hval : calculate_current_value p quotes = 0).
  { unfold calculate_current_value. generalize 0 as a.
    induction Hall as [|h hs Hh Hall IH]; intros a; simpl; [reflexivity|].
    rewrite Hh. apply IH. }
  split; [exact Hval|]. split.
  - unfold calculate_weights. rewrite Hval. reflexivity.
  - rewrite allocation_table_rows.
    induction Hall as [|h hs Hh Hall IH]; simpl; [reflexivity|].
    unfold allocation_row at 1. rewrite Hh. simpl. exact IH.
Qed.

Lemma unquoted_portfolio_witness :
  calculate_current_value samples.three_holdings ∅ = 0 /\
  calculate_weights samples.three_holdings ∅ = [0; 0; 0] /\
  get_allocation_table samples.three_holdings ∅ = [].
Proof.
  apply (unquoted_portfolio samples.three_holdings ∅).
  repeat constructor.
Defined.

End AllocationFacts.

(** ** Percentiles and the risk measures *)

Section PercentileOrderFacts.
Import pandas npstat risk_metrics.

Lemma lerp_linear (a b t : Q) : lerp a b t == a + (b - a) * t.
Proof. unfold lerp. destruct (Qle_bool (1 # 2) t); ring. Qed.

(** The percentile read as a position [i + t] in the sorted sample. *)
Lemma percentile_position (a : list Q) (q : Q) :
  a <> [] -> 0 <= q / 100 -> q / 100 <= 1 ->
  exists v (i : nat) x y t,
    percentile a q = Ok v /\
    sort a !! i = Some x /\
    sort a !! Nat.min (S i) (pred (length a)) = Some y /\
    x <= y /\ 0 <= t /\ t < 1 /\
    v == x + (y - x) * t /\
    inject_Z (Z.of_nat i) + t == (len a - 1) * (q / 100).
Proof.
  intros Hne Hq0 Hq1. unfold percentile.
  apply Qle_bool_iff in Hq0 as Hb0. apply Qle_bool_iff in Hq1 as Hb1.
  rewrite Hb0, Hb1. simpl. unfold get_indexes, len.
  set (n := inject_Z (Z.of_nat (length a))).
  set (vi := (n - 1) * (q / 100)).
  pose proof (sort_nonempty a Hne) as Hsne.
  assert (Hlen : (0 < length a)%nat).
  { destruct a; [contradiction|simpl; lia]. }
  assert (Hn1 : 0 <= n - 1).
  { unfold n. assert (H : inject_Z 1 <= inject_Z (Z.of_nat (length a)))
      by (rewrite <- Zle_Qle; lia).
    change (inject_Z 1) with 1 in H. lra. }
  assert (Hvi0 : 0 <= vi) by (apply Qmult_le_0_compat; assumption).
  assert (Hvi1 : vi <= n - 1).
  { unfold vi. assert (E : (n - 1) * (q / 100) == (n - 1) - (n - 1) * (1 - q / 100))
      by ring.
    rewrite E.
    assert (0 <= (n - 1) * (1 - q / 100))
      by (apply Qmult_le_0_compat; [assumption|lra]).
    lra. }
  destruct (Qle_bool (n - 1) vi) eqn:Habove.
  - apply Qle_bool_iff in Habove.
    destruct (getitem_last (sort a) Hsne) as (x & Hx & ->). simpl.
    rewrite length_sort in Hx.
    exists (lerp x x (vi - inject_Z (-1))), (pred (length a)), x, x, 0.
    split; [reflexivity|]. split; [exact Hx|]. split.
    { assert (Emin : Nat.min (S (pred (length a))) (pred (length a))
                     = pred (length a)) by lia.
      exact (eq_trans (f_equal (fun k => sort a !! k) Emin) Hx). }
    split; [apply Qle_refl|]. split; [apply Qle_refl|].
    split; [reflexivity|]. split; [rewrite lerp_same; ring|].
    assert (E : inject_Z (Z.of_nat (pred (length a))) == n - 1).
    { unfold n. replace (Z.of_nat (pred (length a)))
        with (Z.of_nat (length a) + -1)%Z by lia.
      rewrite inject_Z_plus. reflexivity. }
    rewrite E. lra.
  - apply Qle_bool_false in Habove.
    destruct (Qltb vi 0) eqn:Hbelow.
    { unfold Qltb in Hbelow. apply negb_true_iff, Qle_bool_false in Hbelow.
      lra. }
    set (p := Qfloor vi).
    assert (Hp0 : (0 <= p)%Z).
    { change 0%Z with (Qfloor 0). now apply Qfloor_resp_le. }
    pose proof (Qfloor_le vi) as Hfl. fold p in Hfl.
    pose proof (Qlt_floor vi) as Hfu. fold p in Hfu.
    rewrite inject_Z_plus in Hfu. change (inject_Z 1) with 1 in Hfu.
    assert (Hp1 : (p + 1 < Z.of_nat (length a))%Z).
    { rewrite Zlt_Qlt, inject_Z_plus. change (inject_Z 1) with 1.
      fold n. lra. }
    rewrite <- length_sort in Hp1.
    destruct (getitem_nat (sort a) p) as (x & Hx & ->); [lia|].
    destruct (getitem_nat (sort a) (p + 1)) as (y & Hy & ->); [lia|].
    simpl. rewrite length_sort in Hp1.
    assert (Hxy : x <= y).
    { apply (ascending_lookup (sort a) (Z.to_nat p) (Z.to_nat (p + 1)));
        [apply sort_ascending|lia|assumption..]. }
    exists (lerp x y (vi - inject_Z p)), (Z.to_nat p), x, y,
      (vi - inject_Z p).
    split; [reflexivity|]. split; [exact Hx|]. split.
    { assert (Emin : Nat.min (S (Z.to_nat p)) (pred (length a))
                     = Z.to_nat (p + 1)) by lia.
      exact (eq_trans (f_equal (fun k => sort a !! k) Emin) Hy). }
    split; [exact Hxy|]. split; [lra|]. split; [lra|].
    split; [apply lerp_linear|].
    rewrite Z2Nat.id by lia. ring.
Qed.

(** A percentile does not decrease when its rank increases. *)
Lemma percentile_monotone (a : list Q) (q1 q2 : Q) :
  a <> [] -> 0 <= q1 / 100 -> q1 <= q2 -> q2 / 100 <= 1 ->
  exists v1 v2,
    percentile a q1 = Ok v1 /\ percentile a q2 = Ok v2 /\ v1 <= v2.
Proof.
  intros Hne H0 H12 H1.
  assert (Hd : q1 / 100 <= q2 / 100).
  { unfold Qdiv. apply Qmult_le_compat_r; [exact H12|discriminate]. }
  destruct (percentile_position a q1 Hne H0) as
    (v1 & i1 & x1 & y1 & t1 & Hv1 & Hx1 & Hy1 & Hxy1 & Ht10 & Ht11 & Ev1 & Ep1);
    [lra|].
  destruct (percentile_position a q2 Hne) as
    (v2 & i2 & x2 & y2 & t2 & Hv2 & Hx2 & Hy2 & Hxy2 & Ht20 & Ht21 & Ev2 & Ep2);
    [lra|exact H1|].
  exists v1, v2. split; [exact Hv1|]. split; [exact Hv2|].
  assert (Hlen : (0 < length a)%nat).
  { destruct a; [contradiction|simpl; lia]. }
  assert (Hn1 : 0 <= len a - 1).
  { unfold len. assert (H : inject_Z 1 <= inject_Z (Z.of_nat (length a)))
      by (rewrite <- Zle_Qle; lia).
    change (inject_Z 1) with 1 in H. lra. }
  assert (Hpos : inject_Z (Z.of_nat i1) + t1 <= inject_Z (Z.of_nat i2) + t2).
  { rewrite Ep1, Ep2.
    assert (H : 0 <= (len a - 1) * (q2 / 100 - q1 / 100))
      by (apply Qmult_le_0_compat; lra).
    assert (E : (len a - 1) * (q2 / 100 - q1 / 100)
                == (len a - 1) * (q2 / 100) - (len a - 1) * (q1 / 100))
      by ring.
    lra. }
  assert (Hv1y : v1 <= y1).
  { rewrite Ev1.
    assert (E : x1 + (y1 - x1) * t1 == y1 - (y1 - x1) * (1 - t1)) by ring.
    rewrite E.
    assert (0 <= (y1 - x1) * (1 - t1))
      by (apply Qmult_le_0_compat; lra).
    lra. }
  assert (Hx2v : x2 <= v2).
  { rewrite Ev2.
    assert (0 <= (y2 - x2) * t2) by (apply Qmult_le_0_compat; lra).
    lra. }
  destruct (Nat.lt_trichotomy i1 i2) as [Hlt|[Heq|Hgt]].
  - apply Qle_trans with y1; [exact Hv1y|].
    apply Qle_trans with x2; [|exact Hx2v].
    apply (ascending_lookup (sort a) (Nat.min (S i1) (pred (length a))) i2);
      [apply sort_ascending|lia|assumption..].
  - subst i2. rewrite Hx1 in Hx2. injection Hx2 as <-.
    rewrite Hy1 in Hy2. injection Hy2 as <-.
    rewrite Ev1, Ev2.
    assert (Ht : t1 <= t2) by lra.
    assert (0 <= (y1 - x1) * (t2 - t1))
      by (apply Qmult_le_0_compat; lra).
    assert (E : (y1 - x1) * (t2 - t1) == (y1 - x1) * t2 - (y1 - x1) * t1)
      by ring.
    lra.
  - exfalso.
    assert (H : inject_Z (Z.of_nat i2) + 1 <= inject_Z (Z.of_nat i1)).
    { change 1 with (inject_Z 1). rewrite <- inject_Z_plus, <- Zle_Qle.
      lia. }
    lra.
Qed.

End PercentileOrderFacts.

Section RiskMeasureFacts.
Import pandas npstat risk_metrics.

Lemma quantile_of_confidence (c : Q) : (1 - c) * 100 / 100 == 1 - c.
Proof. field. Qed.

(** X7. A higher confidence level gives a lower (more negative) VaR. *)
Theorem var_decreases_with_confidence (returns : list Q) (c1 c2 : Q) :
  returns <> [] -> 0 <= c1 -> c1 <= c2 -> c2 <= 1 ->
  exists v1 v2,
    calculate_var returns c1 = Ok v1 /\
    calculate_var returns c2 = Ok v2 /\
    v2 <= v1.
Proof.
  intros Hne H0 H12 H1. unfold calculate_var.
  destruct (percentile_monotone returns ((1 - c2) * 100) ((1 - c1) * 100) Hne)
    as (v2 & v1 & Hv2 & Hv1 & Hle).
  - rewrite quantile_of_confidence. lra.
  - lra.
  - rewrite quantile_of_confidence. lra.
  - exists v1, v2. repeat split; assumption.
Qed.

Lemma var_decreases_with_confidence_witness :
  exists v1 v2,
    calculate_var samples.sample_returns (90 # 100) = Ok v1 /\
    calculate_var samples.sample_returns (99 # 100) = Ok v2 /\
    v2 <= v1.
Proof.
  apply (var_decreases_with_confidence samples.sample_returns
           (90 # 100) (99 # 100)).
  - discriminate.
  - discriminate.
  - discriminate.
  - discriminate.
Defined.







End RiskMeasureFacts.

(** ** Maximum drawdown *)

Section DrawdownFacts.
Import drawdown.








Lemma rising_drawdowns (acc : Q) (l : list Q) :
  0 < acc -> Forall (fun x => 1 <= x) l ->
  Forall no_loss
    (zip_with (fun c m => divide (c - m) m) (cumprod_from acc l)
              (expanding_max_from acc (cumprod_from acc l))).
Proof.
  intros Ha Hl. revert acc Ha.
  induction Hl as [|x l Hx Hl IH]; intros acc Ha; simpl; [constructor|].
  assert (Hup : acc <= acc * x).
  { assert (0 <= acc * (x - 1)) by (apply Qmult_le_0_compat; lra).
    assert (E : acc * (x - 1) == acc * x - acc) by ring. lra. }
  apply Qle_bool_iff in Hup as Hb. rewrite Hb.
  constructor.
  - unfold divide. destruct (Qeq_bool (acc * x) 0) eqn:E.
    + apply Qeq_bool_iff in E. lra.
    + eexists. split; [reflexivity|]. unfold Qdiv. ring.
  - apply IH. lra.
Qed.

Lemma series_min_no_loss (l : list xfloat) :
  l <> [] -> Forall no_loss l -> no_loss (series_min l).
Proof.
  intros Hne Hall. induction Hall as [|a l Ha Hall IH]; [contradiction|].
  simpl. destruct l as [|b l].
  - simpl. destruct Ha as (x & -> & Hx). now exists x.
  - assert (Hrest : no_loss (series_min (b :: l))) by (apply IH; discriminate).
    destruct Ha as (x & -> & Hx), Hrest as (y & -> & Hy). simpl.
    destruct (Qle_bool x y); [now exists x|now exists y].
Qed.

(** X11. A series without a negative return has no drawdown: the result is 0.
    An empty series gives NaN. *)
Theorem max_drawdown_of_rising_series (returns : list Q) :
  (returns <> [] -> Forall (fun r => 0 <= r) returns ->
   exists d, calculate_max_drawdown returns = XFinite d /\ d == 0) /\
  calculate_max_drawdown [] = XNaN.
Proof.
  split; [|reflexivity].
  intros Hne Hall. unfold calculate_max_drawdown.
  destruct returns as [|r rs]; [contradiction|].
  inversion Hall as [|? ? Hr Hrs]; subst.
  assert (Hfactors : Forall (fun x => 1 <= x) (map (fun r => 1 + r) rs)).
  { apply Forall_forall. intros x Hx.
    apply list_elem_of_In, in_map_iff in Hx. destruct Hx as (y & <- & Hy).
    rewrite Forall_forall in Hrs.
    specialize (Hrs y (proj2 (list_elem_of_In _ _) Hy)). simpl in Hrs. lra. }
  simpl. refine (series_min_no_loss (_ :: _) _ _); [discriminate|].
  constructor.
  - unfold divide. destruct (Qeq_bool (1 + r) 0) eqn:E.
    + apply Qeq_bool_iff in E. lra.
    + eexists. split; [reflexivity|]. unfold Qdiv. ring.
  - apply rising_drawdowns; [lra|exact Hfactors].
Qed.

Lemma max_drawdown_of_rising_series_witness :
  exists d,
    calculate_max_drawdown [1 # 100; 0; 3 # 100] = XFinite d /\ d == 0.
Proof.
  apply (proj1 (max_drawdown_of_rising_series [1 # 100; 0; 3 # 100])).
  - discriminate.
  - repeat constructor; discriminate.
Defined.

End DrawdownFacts.

(** ** Portfolio returns *)

Section PortfolioReturnFacts.
Import pandas risk_metrics.




End PortfolioReturnFacts.

(** ** More on the simulators *)

Section SimulatorMoreFacts.
Import pandas npstat simulation.
Context {rt : Runtime}.











End SimulatorMoreFacts.

(** ** Degenerate price histories *)

Section DegenerateFacts.
Import pandas npstat simulation.
Context {rt : Runtime}.









End DegenerateFacts.


(** ** The portfolio simulator *)

Section PortfolioSimulatorFacts.
Import pandas npstat simulation.
Context {rt : Runtime}.

Lemma draw_cube_shape (n h k : nat) (g : RandomState) :
  length (fst (draw_cube n h k g)) = n /\
  Forall (fun m => length m = h) (fst (draw_cube n h k g)).
Proof.
  revert g. induction n as [|n IH]; intros g; simpl.
  - split; [reflexivity|constructor].
  - pose proof (draw_rows_shape h k g) as [Hm _].
    destruct (draw_rows h k g) as [m g1].
    specialize (IH g1). destruct (draw_cube n h k g1) as [ms g2].
    simpl in *. destruct IH as [IH1 IH2].
    split; [now rewrite IH1|now constructor].
Qed.

(** X15. When [simulate_portfolio_outcomes] returns, the weights matched the
    columns and there is one terminal value per simulation; with a horizon
    of 0 days every terminal value is the current value times 1.  With
    mismatched weights it never returns a value. *)
Theorem portfolio_outcomes_shape (prices : DataFrame) (weights : list Q)
    (current_value : Q) (horizon_days n_simulations : nat)
    (random_seed : Z) (g : RandomState) :
  (forall final_values,
     fst (simulate_portfolio_outcomes prices weights current_value
            horizon_days n_simulations random_seed g) = Ok final_values ->
     length weights = length (columns prices) /\
     length final_values = n_simulations /\
     (horizon_days = 0%nat ->
      final_values = replicate n_simulations (Some (current_value * 1)))) /\
  (length weights <> length (columns prices) ->
   exists e,
     fst (simulate_portfolio_outcomes prices weights current_value
            horizon_days n_simulations random_seed g) = Raise e).
Proof.
  assert (Hok : forall final_values,
     fst (simulate_portfolio_outcomes prices weights current_value
            horizon_days n_simulations random_seed g) = Ok final_values ->
     length weights = length (columns prices) /\
     length final_values = n_simulations /\
     (horizon_days = 0%nat ->
      final_values = replicate n_simulations (Some (current_value * 1)))).
  { intros vals. unfold simulate_portfolio_outcomes, np_random_seed,
      np_random_multivariate_normal.
    cbv zeta. unfold column_means. rewrite length_map, length_seq.
    pose proof (draw_cube_shape n_simulations horizon_days
                  (length (columns prices)) (seed_state random_seed))
      as [Hn Hh].
    destruct (draw_cube n_simulations horizon_days
                (length (columns prices)) (seed_state random_seed))
      as [x g'].
    simpl in Hn, Hh. simpl.
    destruct (covariance_factor
                (cov (length (columns prices)) (returns_of prices)))
      as [A|e]; simpl; [|discriminate].
    unfold dot_cube_vector.
    destruct (Nat.eqb_spec (length weights) (length (columns prices)))
      as [Hk|Hk]; simpl; [|discriminate].
    intros H. injection H as <-.
    split; [exact Hk|]. split; [now rewrite !length_map|].
    intros ->. rewrite <- Hn. clear Hn.
    induction Hh as [|m x Hm Hh IH]; simpl; [reflexivity|].
    destruct m; [|discriminate]. simpl. f_equal. exact IH. }
  split; [exact Hok|].
  intros Hne.
  destruct (fst (simulate_portfolio_outcomes prices weights current_value
                   horizon_days n_simulations random_seed g))
    as [vals|e] eqn:E.
  - destruct (Hok vals eq_refl) as [Hk _]. contradiction.
  - now exists e.
Qed.

End PortfolioSimulatorFacts.

Lemma portfolio_outcomes_shape_witness :
  fst (simulation.simulate_portfolio_outcomes
         (rt := sample_runtime.runtime) samples.two_assets [1 # 2; 1 # 2]
         1000 0 3 42 0%Z)
  = Ok (replicate 3 (Some (1000 * 1))) /\
  exists e,
    fst (simulation.simulate_portfolio_outcomes
           (rt := sample_runtime.runtime) samples.two_assets
           [1 # 2; 1 # 2; 1] 1000 2 3 42 0%Z) = Raise e.
Proof.
  split.
  - destruct (fst (simulation.simulate_portfolio_outcomes
                     (rt := sample_runtime.runtime) samples.two_assets
                     [1 # 2; 1 # 2] 1000 0 3 42 0%Z)) as [vals|e] eqn:E.
    + destruct (proj1 (portfolio_outcomes_shape
                         (rt := sample_runtime.runtime) samples.two_assets
                         [1 # 2; 1 # 2] 1000 0 3 42 0%Z) vals E)
        as (_ & _ & Hv).
      now rewrite (Hv eq_refl).
    + vm_compute in E. discriminate E.
  - apply (proj2 (portfolio_outcomes_shape
                    (rt := sample_runtime.runtime) samples.two_assets
                    [1 # 2; 1 # 2; 1] 1000 2 3 42 0%Z)).
    simpl. lia.
Defined.

(** ** More on the simulation statistics *)

Section StatisticsMoreFacts.
Import pandas npstat simulation.
Context {rt : Runtime}.

Lemma Qltb_spec (x y : Q) : Qltb x y = true <-> x < y.
Proof.
  unfold Qltb. rewrite negb_true_iff. split.
  - apply Qle_bool_false.
  - intros H. destruct (Qle_bool y x) eqn:E; [|reflexivity].
    apply Qle_bool_iff in E. lra.
Qed.









End StatisticsMoreFacts.

Section StatisticsWitnesses.
Import simulation.



End StatisticsWitnesses.

(** ** Risk levels and their styles *)

Section RiskLevelFacts.
Import explain styles.

(** X19. Every level that [assess_risk_level] returns has its own colour and
    emoji in the style tables, so the style lookups never fall back to
    their defaults, and the emoji of the style table is the one that
    [assess_risk_level] returns with the level. *)
Theorem risk_level_has_style (var_pct : Q) :
  get_risk_emoji (fst (assess_risk_level var_pct))
    = snd (assess_risk_level var_pct) /\
  exists color,
    RISK_COLORS !! fst (assess_risk_level var_pct) = Some color /\
    get_risk_color (fst (assess_risk_level var_pct)) = Ok color.
Proof.
  unfold assess_risk_level.
  destruct (npstat.Qltb var_pct 3);
    [split; [reflexivity|eexists; split; vm_compute; reflexivity]|].
  destruct (npstat.Qltb var_pct 7);
    [split; [reflexivity|eexists; split; vm_compute; reflexivity]|].
  destruct (npstat.Qltb var_pct 12);
    split; try reflexivity; eexists; split; vm_compute; reflexivity.
Qed.

(** X20. A larger VaR percentage never gives a lower risk level; below 3 the
    level is low and from 12 on it is very high. *)
Theorem risk_level_monotone (v1 v2 : Q) :
  v1 <= v2 ->
  (exists r1 r2,
     risk_rank (fst (assess_risk_level v1)) = Some r1 /\
     risk_rank (fst (assess_risk_level v2)) = Some r2 /\
     (r1 <= r2)%nat) /\
  (v1 < 3 <-> fst (assess_risk_level v1) = "Low"%string) /\
  (12 <= v1 <-> fst (assess_risk_level v1) = "Very High"%string).
Proof.
  intros Hle. unfold assess_risk_level.
  destruct (npstat.Qltb v1 3) eqn:A1, (npstat.Qltb v1 7) eqn:A2,
    (npstat.Qltb v1 12) eqn:A3,
    (npstat.Qltb v2 3) eqn:B1, (npstat.Qltb v2 7) eqn:B2,
    (npstat.Qltb v2 12) eqn:B3;
    repeat match goal with
           | H : npstat.Qltb _ _ = true |- _ => apply Qltb_spec in H
           | H : npstat.Qltb _ _ = false |- _ =>
               unfold npstat.Qltb in H;
               apply negb_false_iff, Qle_bool_iff in H
           end;
    try (exfalso; lra);
    (split; [do 2 eexists; split; [reflexivity|split; [reflexivity|lia]]|]);
    simpl; split; split; intros H; try discriminate H; try lra;
    reflexivity.
Qed.

Lemma risk_level_monotone_witness :
  exists r1 r2,
    risk_rank (fst (assess_risk_level (5 # 2))) = Some r1 /\
    risk_rank (fst (assess_risk_level 8)) = Some r2 /\
    (r1 <= r2)%nat.
Proof.
  apply (proj1 (risk_level_monotone (5 # 2) 8 ltac:(discriminate))).
Defined.

End RiskLevelFacts.

(** ** The data quality score *)

Section DataQualityFacts.
Import data_loader.

Lemma isna_count_le_size (prices : RawFrame) :
  rectangular prices -> (isna_count prices <= size prices)%nat.
Proof.
  unfold rectangular, isna_count, size.
  generalize (length (raw_columns prices)) as k.
  intros k Hall. induction Hall as [|r rs Hr Hall IH]; simpl; [lia|].
  apply Nat.add_le_mono; [rewrite <- Hr; apply length_filter|exact IH].
Qed.

Lemma isna_count_zero (prices : RawFrame) :
  Forall (Forall (fun c => c <> None)) (raw_rows prices) ->
  isna_count prices = 0%nat.
Proof.
  unfold isna_count. intros Hall.
  induction Hall as [|r rs Hr Hall IH]; simpl; [reflexivity|].
  rewrite IH. rewrite Nat.add_0_r.
  induction Hr as [|c r Hc Hr IHr]; [reflexivity|].
  rewrite filter_cons. destruct (decide (c = None)); [contradiction|].
  exact IHr.
Qed.

(** X21. On a rectangular table with at least one cell the quality score is a
    number between 0 and 1, and it is 1 for a table of at least 252 rows
    without a missing value. *)
Theorem data_quality_score_range (prices : RawFrame) :
  rectangular prices -> (0 < size prices)%nat ->
  exists score,
    calculate_data_quality_score prices = Some score /\
    0 <= score /\ score <= 1 /\
    ((252 <= length (raw_rows prices))%nat ->
     Forall (Forall (fun c => c <> None)) (raw_rows prices) ->
     score == 1).
Proof.
  intros Hrect Hsize. unfold calculate_data_quality_score.
  pose proof (isna_count_le_size prices Hrect) as Hcount.
  set (n := inject_Z (Z.of_nat (isna_count prices))).
  set (m := inject_Z (Z.of_nat (size prices))).
  assert (Hm : 0 < m).
  { unfold m. change 0 with (inject_Z 0). rewrite <- Zlt_Qlt. lia. }
  assert (Hn0 : 0 <= n).
  { unfold n. change 0 with (inject_Z 0). rewrite <- Zle_Qle. lia. }
  assert (Hnm : n <= m).
  { unfold n, m. rewrite <- Zle_Qle. lia. }
  simpl. destruct (Qeq_bool m 0) eqn:E.
  { apply Qeq_bool_iff in E. lra. }
  set (ls := py_min (len (raw_rows prices) / 252) 1).
  assert (Hls : 0 <= ls /\ ls <= 1).
  { unfold ls, py_min.
    assert (Hl : 0 <= len (raw_rows prices) / 252).
    { apply Qle_shift_div_l; [reflexivity|].
      pose proof (len_nonneg (raw_rows prices)). lra. }
    destruct (npstat.Qltb 1 (len (raw_rows prices) / 252)) eqn:F.
    - split; discriminate.
    - unfold npstat.Qltb in F. apply negb_false_iff, Qle_bool_iff in F.
      split; assumption. }
  assert (Hq : 0 <= n / m /\ n / m <= 1).
  { split.
    - apply Qle_shift_div_l; [exact Hm|lra].
    - apply Qle_shift_div_r; [exact Hm|lra]. }
  eexists. split; [reflexivity|].
  destruct Hls as [Hls0 Hls1], Hq as [Hq0 Hq1].
  split; [lra|]. split; [lra|].
  intros Hrows Hfull.
  assert (Hzero : n == 0).
  { unfold n. now rewrite (isna_count_zero prices Hfull). }
  assert (Hone : ls == 1).
  { unfold ls, py_min.
    destruct (npstat.Qltb 1 (len (raw_rows prices) / 252)) eqn:F;
      [reflexivity|].
    unfold npstat.Qltb in F. apply negb_false_iff, Qle_bool_iff in F.
    assert (Hl : 1 <= len (raw_rows prices) / 252).
    { apply Qle_shift_div_l; [reflexivity|].
      unfold len. change (1 * 252) with (inject_Z 252).
      rewrite <- Zle_Qle. lia. }
    now apply Qle_antisym. }
  rewrite Hone, Hzero. unfold Qdiv. ring.
Qed.

Lemma data_quality_score_range_witness :
  exists score,
    calculate_data_quality_score three_day_table = Some score /\
    0 <= score /\ score <= 1.
Proof.
  destruct (data_quality_score_range three_day_table)
    as (score & Hs & H0 & H1 & _).
  - repeat constructor.
  - unfold size. simpl. lia.
  - exists score. repeat split; assumption.
Defined.

End DataQualityFacts.

(** ** The loss distribution *)

Section HistogramFacts.
Import npstat nphist.

Lemma amin_spec (l : list Q) (x : Q) :
  amin x l <= x /\ forall y, In y l -> amin x l <= y.
Proof.
  revert x. induction l as [|z l IH]; intros x; simpl.
  - split; [apply Qle_refl|contradiction].
  - unfold amin in *. simpl.
    destruct (Qle_bool x z) eqn:E.
    + apply Qle_bool_iff in E. destruct (IH x) as [H1 H2].
      split; [exact H1|]. intros y [<-|Hy]; [lra|now apply H2].
    + apply Qle_bool_false in E. destruct (IH z) as [H1 H2].
      split; [lra|]. intros y [<-|Hy]; [exact H1|now apply H2].
Qed.

Lemma amax_spec (l : list Q) (x : Q) :
  x <= amax x l /\ forall y, In y l -> y <= amax x l.
Proof.
  revert x. induction l as [|z l IH]; intros x; simpl.
  - split; [apply Qle_refl|contradiction].
  - unfold amax in *. simpl.
    destruct (Qle_bool z x) eqn:E.
    + apply Qle_bool_iff in E. destruct (IH x) as [H1 H2].
      split; [exact H1|]. intros y [<-|Hy]; [lra|now apply H2].
    + apply Qle_bool_false in E. destruct (IH z) as [H1 H2].
      split; [lra|]. intros y [<-|Hy]; [exact H1|now apply H2].
Qed.

Lemma outer_edges_spec (a : list Q) :
  a <> [] ->
  fst (outer_edges a) < snd (outer_edges a) /\
  forall y, In y a -> fst (outer_edges a) <= y /\ y <= snd (outer_edges a).
Proof.
  destruct a as [|x l]; [contradiction|]. intros _. unfold outer_edges.
  destruct (amin_spec l x) as [Hlo Hlos], (amax_spec l x) as [Hhi Hhis].
  assert (Hin : forall y, In y (x :: l) -> amin x l <= y /\ y <= amax x l).
  { intros y [<-|Hy]; [split; assumption|].
    split; [now apply Hlos|now apply Hhis]. }
  destruct (Qeq_bool (amin x l) (amax x l)) eqn:E; simpl.
  - apply Qeq_bool_iff in E. split; [lra|].
    intros y Hy. destruct (Hin y Hy). lra.
  - apply Qeq_bool_neq in E. split; [|exact Hin].
    apply Qle_lteq in Hlo. apply Qle_lteq in Hhi.
    destruct (Qlt_le_dec (amin x l) (amax x l)) as [Hlt|Hge];
      [exact Hlt|].
    exfalso. apply E. apply Qle_antisym; [lra|exact Hge].
Qed.

Lemma linspace_length (start stop : Q) (n : nat) :
  length (linspace start stop (S n)) = S n.
Proof.
  unfold linspace. rewrite length_app, length_map, length_seq. simpl. lia.
Qed.

Lemma linspace_first (start stop : Q) (n : nat) :
  exists e, linspace start stop (S (S n)) !! 0%nat = Some e /\ e == start.
Proof.
  unfold linspace. simpl. eexists. split; [reflexivity|]. ring.
Qed.

Lemma getitem_in_range (arr : list Q) (i : Z) :
  (0 <= i < Z.of_nat (length arr))%Z ->
  exists x, arr !! Z.to_nat i = Some x /\ getitem arr i = Ok x.
Proof. apply getitem_nat. Qed.

(** A value within the outer edges falls in one of the bins. *)
Lemma bin_index_range (first_edge last_edge x : Q) (n : nat) :
  first_edge < last_edge -> first_edge <= x -> x <= last_edge ->
  exists i,
    bin_index (linspace first_edge last_edge (S (S n))) first_edge last_edge
              (Z.of_nat (S n)) x = Ok i /\
    (0 <= i < Z.of_nat (S n))%Z.
Proof.
  intros Hfl Hfx Hxl. unfold bin_index.
  set (edges := linspace first_edge last_edge (S (S n))).
  assert (Hlen : length edges = S (S n)) by apply linspace_length.
  set (bins := Z.of_nat (S n)).
  set (f := (x - first_edge) / (last_edge - first_edge) * inject_Z bins).
  assert (Hbins : 0 < inject_Z bins).
  { change 0 with (inject_Z 0). rewrite <- Zlt_Qlt. unfold bins. lia. }
  assert (Hratio : 0 <= (x - first_edge) / (last_edge - first_edge) /\
                   (x - first_edge) / (last_edge - first_edge) <= 1).
  { split.
    - apply Qle_shift_div_l; lra.
    - apply Qle_shift_div_r; lra. }
  set (ratio := (x - first_edge) / (last_edge - first_edge)) in *.
  assert (Hf0 : 0 <= f).
  { unfold f. apply Qmult_le_0_compat; lra. }
  assert (Hf1 : f <= inject_Z bins).
  { unfold f.
    assert (H : 0 <= (1 - ratio) * inject_Z bins)
      by (apply Qmult_le_0_compat; lra).
    assert (E : (1 - ratio) * inject_Z bins
                == inject_Z bins - ratio * inject_Z bins) by ring.
    lra. }
  assert (Htrunc : (0 <= trunc f <= bins)%Z).
  { unfold trunc. apply Qle_bool_iff in Hf0 as Hb. rewrite Hb. split.
    - change 0%Z with (Qfloor 0). now apply Qfloor_resp_le.
    - rewrite <- (Qfloor_Z bins). now apply Qfloor_resp_le. }
  set (i0 := trunc f) in *.
  set (i1 := if (i0 =? bins)%Z then (i0 - 1)%Z else i0).
  assert (Hi1 : (0 <= i1 < bins)%Z).
  { unfold i1, bins in *. destruct (Z.eqb_spec i0 (Z.of_nat (S n))); lia. }
  destruct (getitem_in_range edges i1) as (e1 & He1 & ->);
    [rewrite Hlen; unfold bins in Hi1; lia|].
  simpl.
  set (i2 := if Qltb x e1 then (i1 - 1)%Z else i1).
  assert (Hi2 : (0 <= i2 < bins)%Z).
  { unfold i2. destruct (Qltb x e1) eqn:E; [|exact Hi1].
    apply Qltb_spec in E.
    destruct (Z.eq_dec i1 0%Z) as [Hz|Hnz]; [|lia].
    exfalso. rewrite Hz in He1.
    destruct (linspace_first first_edge last_edge n) as (e & He & Hee).
    fold edges in He. change (Z.to_nat 0) with 0%nat in He1.
    rewrite He in He1.
    injection He1 as <-. lra. }
  destruct (getitem_in_range edges (i2 + 1)) as (e2 & He2 & ->);
    [rewrite Hlen; unfold bins in Hi2; lia|].
  simpl. eexists. split; [reflexivity|].
  destruct (negb (Qltb x e2) && negb (i2 =? bins - 1)%Z)%bool eqn:E;
    [|exact Hi2].
  apply andb_true_iff in E. destruct E as [_ E].
  apply negb_true_iff, Z.eqb_neq in E. lia.
Qed.

Lemma traverse_range {A B} (f : A -> outcome B) (P : A -> Prop)
    (R : B -> Prop) (l : list A) :
  (forall x, P x -> exists y, f x = Ok y /\ R y) ->
  Forall P l ->
  exists ys, traverse f l = Ok ys /\ Forall R ys /\ length ys = length l.
Proof.
  intros Hf Hall. induction Hall as [|x l Hx Hall IH]; simpl.
  - exists []. repeat split. constructor.
  - destruct (Hf x Hx) as (y & -> & Hy).
    destruct IH as (ys & -> & Hys & Hlen). simpl.
    exists (y :: ys). split; [reflexivity|].
    split; [now constructor|]. simpl. now rewrite Hlen.
Qed.

Lemma one_bin (i : Z) (m : nat) :
  (0 <= i < Z.of_nat m)%Z ->
  list_sum (map (fun b => if decide (i = Z.of_nat b) then 1 else 0)%nat
                (seq 0 m)) = 1%nat.
Proof.
  intros Hi. induction m as [|m IH]; [lia|].
  rewrite seq_S, map_app, list_sum_app. simpl.
  destruct (decide (i = Z.of_nat m)) as [->|Hne].
  - assert (Hzero : forall k n,
               (n <= m)%nat -> (k + n <= m)%nat ->
               list_sum (map (fun b => if decide (Z.of_nat m = Z.of_nat b)
                                       then 1 else 0)%nat (seq k n)) = 0%nat).
    { intros k n. revert k. induction n as [|n IHn]; intros k Hn Hk;
        [reflexivity|].
      simpl. destruct (decide (Z.of_nat m = Z.of_nat k)); [lia|].
      apply IHn; lia. }
    rewrite Hzero by lia. lia.
  - rewrite IH by lia. lia.
Qed.

Lemma count_index_cons (b : nat) (i : Z) (indices : list Z) :
  count_index b (i :: indices)
  = ((if decide (i = Z.of_nat b) then 1 else 0) + count_index b indices)%nat.
Proof.
  unfold count_index. rewrite filter_cons.
  destruct (decide (i = Z.of_nat b)); reflexivity.
Qed.

Lemma counts_total (indices : list Z) (m : nat) :
  Forall (fun i => (0 <= i < Z.of_nat m)%Z) indices ->
  list_sum (map (fun b => count_index b indices) (seq 0 m))
  = length indices.
Proof.
  induction 1 as [|i indices Hi Hall IH].
  - simpl. induction (seq 0 m) as [|b bs IHb]; [reflexivity|exact IHb].
  - rewrite (map_ext _ (fun b => ((if decide (i = Z.of_nat b) then 1 else 0)
                                  + count_index b indices)%nat))
      by (intros b; apply count_index_cons).
    assert (Hsplit : forall (f g : nat -> nat) (l : list nat),
               list_sum (map (fun b => (f b + g b)%nat) l)
               = (list_sum (map f l) + list_sum (map g l))%nat).
    { intros f g l. induction l as [|b l IHl]; simpl; [reflexivity|].
      rewrite IHl. lia. }
    rewrite Hsplit, IH, one_bin by exact Hi. reflexivity.
Qed.

Lemma bincount_total (indices : list Z) (m : nat) :
  Forall (fun i => (0 <= i < Z.of_nat m)%Z) indices ->
  exists counts,
    bincount indices m = Ok counts /\ length counts = m /\
    list_sum counts = length indices.
Proof.
  intros Hall. unfold bincount.
  assert (Hneg : existsb (fun i => (i <? 0)%Z) indices = false).
  { induction Hall as [|i l Hi Hall IH]; [reflexivity|]. simpl.
    rewrite IH. destruct (Z.ltb_spec i 0); [lia|reflexivity]. }
  assert (Hsize : fold_right (fun i k => Nat.max (S (Z.to_nat i)) k) m indices
                  = m).
  { clear Hneg. induction Hall as [|i l Hi Hall IH]; [reflexivity|].
    cbn [fold_right]. rewrite IH. apply Nat.max_r. lia. }
  rewrite Hneg, Hsize. eexists. split; [reflexivity|].
  split; [now rewrite length_map, length_seq|].
  now apply counts_total.
Qed.

(** A histogram of a non-empty array with a positive number of bins has
    that many counts, one more edge, and counts every element once. *)
Lemma histogram_total (a : list Q) (n : nat) :
  a <> [] ->
  exists counts edges,
    histogram a (S n) = Ok (counts, edges) /\
    length counts = S n /\ length edges = S (S n) /\
    list_sum counts = length a.
Proof.
  intros Hne. unfold histogram.
  destruct (outer_edges_spec a Hne) as [Hfl Hin].
  destruct (outer_edges a) as [first_edge last_edge]. simpl in Hfl, Hin.
  replace (S n + 1)%nat with (S (S n)) by lia.
  assert (Hkeep : filter (fun x => Qle_bool first_edge x
                                   && Qle_bool x last_edge = true) a = a).
  { clear Hne. induction a as [|x a IH]; [reflexivity|].
    rewrite filter_cons.
    destruct (Hin x (or_introl eq_refl)) as [H1 H2].
    apply Qle_bool_iff in H1, H2.
    destruct (decide (Qle_bool first_edge x && Qle_bool x last_edge = true))
      as [_|Hn]; [|rewrite H1, H2 in Hn; contradiction].
    f_equal. apply IH. intros y Hy. apply Hin. now right. }
  rewrite Hkeep.
  destruct (traverse_range
              (bin_index (linspace first_edge last_edge (S (S n)))
                         first_edge last_edge (Z.of_nat (S n)))
              (fun x => first_edge <= x /\ x <= last_edge)
              (fun i => (0 <= i < Z.of_nat (S n))%Z) a)
    as (indices & -> & Hrange & Hlen).
  { intros x [H1 H2]. now apply bin_index_range. }
  { apply Forall_forall. intros x Hx. apply Hin. now apply list_elem_of_In. }
  simpl.
  destruct (bincount_total indices (S n) Hrange) as (counts & -> & Hc & Hs).
  simpl. exists counts, (linspace first_edge last_edge (S (S n))).
  split; [reflexivity|]. split; [exact Hc|].
  split; [apply linspace_length|]. now rewrite Hs.
Qed.

End HistogramFacts.

Section LossDistributionFacts.
Import npstat nphist loss_distribution.

Lemma loss_count (simulated_values : list Q) (current_value : Q) :
  length (filter (fun l => Qltb 0 l = true)
                 (map (fun v => current_value - v) simulated_values))
  = length (filter (fun v => Qltb v current_value = true) simulated_values).
Proof.
  induction simulated_values as [|v l IH]; [reflexivity|].
  simpl map. rewrite !filter_cons.
  destruct (decide (Qltb 0 (current_value - v) = true)) as [H1|H1],
    (decide (Qltb v current_value = true)) as [H2|H2]; simpl.
  - now rewrite IH.
  - exfalso. apply H2. apply Qltb_spec. apply Qltb_spec in H1. lra.
  - exfalso. apply H1. apply Qltb_spec. apply Qltb_spec in H2. lra.
  - exact IH.
Qed.

Lemma probabilities_sum (counts : list nat) (n : Q) :
  Qsum (map (fun c => inject_Z (Z.of_nat c) / n) counts)
  == inject_Z (Z.of_nat (list_sum counts)) / n.
Proof.
  induction counts as [|c counts IH]; simpl.
  - unfold Qdiv. ring.
  - rewrite IH, Nat2Z.inj_add, inject_Z_plus. unfold Qdiv. ring.
Qed.

Lemma centers_length (edges : list Q) (n : nat) :
  length edges = S n ->
  length (zip_with (fun lo hi => (lo + hi) / 2) (removelast edges)
                   (tail edges)) = n.
Proof.
  intros Hlen. rewrite length_zip_with.
  assert (H1 : length (removelast edges) = n).
  { destruct edges as [|e edges]; [discriminate|].
    rewrite <- (rev_involutive (e :: edges)) in *.
    destruct (rev (e :: edges)) as [|x r]; [discriminate|].
    simpl rev in *. rewrite removelast_last.
    rewrite length_app in Hlen. simpl in Hlen. lia. }
  assert (H2 : length (tail edges) = n)
    by (destruct edges; [discriminate|simpl in *; lia]).
  lia.
Qed.

(** X18. Without a simulated value strictly below the current value the loss
    distribution is empty.  Otherwise it has 50 bin centres and 50
    probabilities, none of them negative, and the probabilities add up to
    the fraction of simulated values that are strictly below the current
    value. *)
Theorem loss_distribution_total (simulated_values : list Q)
    (current_value : Q) :
  let losses :=
    length (filter (fun v => Qltb v current_value = true) simulated_values) in
  (losses = 0%nat ->
   get_loss_distribution simulated_values current_value = Ok ([], [])) /\
  (losses <> 0%nat ->
   exists bin_centers probabilities,
     get_loss_distribution simulated_values current_value
       = Ok (bin_centers, probabilities) /\
     length bin_centers = 50%nat /\ length probabilities = 50%nat /\
     Forall (fun p => 0 <= p) probabilities /\
     Qsum probabilities
       == inject_Z (Z.of_nat losses) / len simulated_values).
Proof.
  intros losses. unfold get_loss_distribution.
  pose proof (loss_count simulated_values current_value) as Hcount.
  fold losses in Hcount.
  set (scenarios := filter (fun l => Qltb 0 l = true)
                      (map (fun v => current_value - v) simulated_values))
    in *.
  split; intros Hl.
  - rewrite Hcount, Hl. reflexivity.
  - destruct (Nat.ltb_spec 0 (length scenarios)) as [_|Hz]; [|lia].
    destruct (histogram_total scenarios 49) as
      (counts & edges & -> & Hc & He & Hs).
    { intros Hnil. rewrite Hnil in Hcount. simpl in Hcount. lia. }
    simpl. do 2 eexists. split; [reflexivity|].
    split; [now apply centers_length|].
    split; [now rewrite length_map|]. split.
    + apply Forall_forall. intros p Hp.
      apply list_elem_of_In, in_map_iff in Hp. destruct Hp as (c & <- & _).
      assert (Hn : 0 < len simulated_values).
      { destruct simulated_values as [|v l]; [simpl in losses; lia|].
        rewrite len_cons. pose proof (len_nonneg l). lra. }
      apply Qle_shift_div_l; [exact Hn|].
      assert (H : inject_Z 0 <= inject_Z (Z.of_nat c))
        by (rewrite <- Zle_Qle; lia).
      change (inject_Z 0) with 0 in H. lra.
    + rewrite probabilities_sum, Hs, Hcount. reflexivity.
Qed.

Lemma loss_distribution_total_witness :
  get_loss_distribution [120; 100] 100 = Ok ([], []) /\
  exists bin_centers probabilities,
    get_loss_distribution [90; 120; 100; 80; 110; 95] 100
      = Ok (bin_centers, probabilities) /\
    length bin_centers = 50%nat /\ length probabilities = 50%nat /\
    Forall (fun p => 0 <= p) probabilities /\
    Qsum probabilities == 3 / 6.
Proof.
  split.
  - apply (proj1 (loss_distribution_total [120; 100] 100)). reflexivity.
  - apply (proj2 (loss_distribution_total [90; 120; 100; 80; 110; 95] 100)).
    vm_compute. discriminate.
Defined.

End LossDistributionFacts.

(** ** Two ways to count a loss *)

Section LossCountingFacts.
Import pandas npstat simulation.
Context {rt : Runtime}.



End LossCountingFacts.

